(** * A2A task server: lifecycle, request normalisation and authentication

    A shallow embedding of [a2a/models.py] and [a2a/server.py].

    - Request payloads are loosely typed JSON values ([json]); Python's
      truthiness, [dict.get], iteration and [isinstance] tests are written
      out, and the exceptions they raise are values of [exn].
    - The module-level dictionary [tasks] is a [gmap string Task].  A task
      object is reachable under one key only, so mutating it in place is
      modelled by re-inserting the updated record under that key.
    - [uuid4] is a supply of identifiers indexed by the number of draws made
      so far; the handlers thread that counter through the [world].
    - The awaited executor ([agent_graph.ainvoke]) is a function from the
      conversation it is given to an [outcome]; a handler runs without
      interleaving of other requests at the await.
    - [TaskStatus.timestamp] (wall-clock time) is left out. *)

From stdpp Require Import base option list strings gmap fin_maps.
From Stdlib Require Import ZArith Ascii.

Local Open Scope string_scope.
Local Open Scope list_scope.

(** ** Exceptions and results *)

Inductive exn :=
  | NoContentFound               (* ValueError("No text content found in request...") *)
  | TaskNotFound                 (* ValueError("Task not found: ...") *)
  | AttributeError               (* .get on a value that is not a dict *)
  | TypeError                    (* iterating a non-iterable, hashing a list or dict *)
  | ValidationError              (* pydantic rejects a field value *)
  | HTTPException (status : Z) (detail : string).

Inductive result (A : Type) :=
  | Ok (a : A)
  | Err (e : exn).
Arguments Ok {A} a.
Arguments Err {A} e.

#[global] Instance result_bind : MBind result := λ A B k r,
  match r with
  | Ok a => k a
  | Err e => Err e
  end.

(** ** JSON values as Python sees them *)

Set Warnings "-register-all".

(** A JSON number is an integer here: the code only tests a number for
    zero and for not being a string. *)
Inductive json :=
  | JNull
  | JBool (b : bool)
  | JNum (z : Z)
  | JStr (s : string)
  | JList (l : list json)
  | JDict (d : list (string * json)).

(** A parsed JSON object: keys in insertion order, each key once. *)
Abbreviation dict := (list (string * json)).

(** [bool(v)] *)
Definition truthy (v : json) : bool :=
  match v with
  | JNull => false
  | JBool b => b
  | JNum z => negb (z =? 0)%Z
  | JStr s => negb (String.eqb s "")
  | JList l => match l with [] => false | _ => true end
  | JDict d => match d with [] => false | _ => true end
  end.

(** [a or b] *)
Definition py_or (a b : json) : json := if truthy a then a else b.

(** [d.get(k)] on a dict; [None] when the key is missing. *)
Fixpoint dict_lookup (d : dict) (k : string) : option json :=
  match d with
  | [] => None
  | (k', v) :: d' => if String.eqb k' k then Some v else dict_lookup d' k
  end.

(** [d.get(k, dflt)] *)
Definition dict_get (d : dict) (k : string) (dflt : json) : json :=
  match dict_lookup d k with
  | Some v => v
  | None => dflt
  end.

(** [k in d] *)
Definition dict_mem (d : dict) (k : string) : bool :=
  match dict_lookup d k with
  | Some _ => true
  | None => false
  end.

(** [v.get]: only a dict has the method. *)
Definition as_dict (v : json) : result dict :=
  match v with
  | JDict d => Ok d
  | _ => Err AttributeError
  end.

Fixpoint chars (s : string) : list json :=
  match s with
  | EmptyString => []
  | String c s' => JStr (String c EmptyString) :: chars s'
  end.

(** [for part in v]: a list yields its items, a string its characters, a
    dict its keys; anything else is not iterable. *)
Definition iterate (v : json) : result (list json) :=
  match v with
  | JList l => Ok l
  | JStr s => Ok (chars s)
  | JDict d => Ok (map (fun kv => JStr (fst kv)) d)
  | _ => Err TypeError
  end.

(** [isinstance(v, str)], used by pydantic for a [str] field. *)
Definition as_str (v : json) : result string :=
  match v with
  | JStr s => Ok s
  | _ => Err ValidationError
  end.

(** [hash(v)] is defined: lists and dicts are unhashable. *)
Definition hashable (v : json) : bool :=
  match v with
  | JList _ | JDict _ => false
  | _ => true
  end.

(** ** models.py *)

Inductive TaskState :=
  | SUBMITTED | WORKING | INPUT_REQUIRED | COMPLETED | CANCELED | FAILED.

Record Part := mkPart {
  part_type : string;
  part_text : option string;
  part_mimeType : option string;
  part_data : option string }.

Record Message := mkMessage {
  role : string;
  parts : list Part }.

Record Artifact := mkArtifact {
  art_name : option string;
  art_description : option string;
  art_parts : list Part;
  art_index : Z;
  art_append : bool;
  art_lastChunk : bool }.

Record TaskStatus := mkTaskStatus {
  state : TaskState;
  message : option Message }.

Record Task := mkTask {
  id : string;
  sessionId : option string;
  status : TaskStatus;
  history : list Message;
  artifacts : list Artifact }.

(** [Part(type="text", text=s)] *)
Definition text_part (s : string) : Part :=
  {| part_type := "text"; part_text := Some s;
     part_mimeType := None; part_data := None |}.

(** [Message(role=r, parts=[Part(type="text", text=s)])] *)
Definition text_message (r s : string) : Message :=
  {| role := r; parts := [text_part s] |}.

(** [Task(id=task_id, sessionId=session_id)] with the field defaults. *)
Definition new_task (task_id session_id : string) : Task :=
  {| id := task_id; sessionId := Some session_id;
     status := {| state := SUBMITTED; message := None |};
     history := []; artifacts := [] |}.

(** [Artifact(name="response", parts=[Part(type="text", text=s)],
    index=0, lastChunk=True)] *)
Definition response_artifact (s : string) : Artifact :=
  {| art_name := Some "response"; art_description := None;
     art_parts := [text_part s]; art_index := 0%Z;
     art_append := false; art_lastChunk := true |}.

(** ** langchain messages and the executor *)

Inductive lc_message :=
  | HumanMessage (content : string)
  | AIMessage (content : string)
  | SystemMessage (content : string)
  | ToolMessage (content : string).

(** What awaiting [agent_graph.ainvoke] gives: the [messages] of the final
    graph state, or an exception with its [str(e)]. *)
Inductive outcome :=
  | Returned (messages : list lc_message)
  | Raised (description : string).

(** ** server.py: request normalisation (lines 248-280) *)

(** The loop over [parts]; the value is [user_text] when the loop ends,
    starting from the empty string. *)
Fixpoint scan_parts (ps : list json) : json :=
  match ps with
  | [] => JStr ""
  | JDict p :: rest =>
      if match dict_get p "type" JNull with
         | JStr t => String.eqb t "text"
         | _ => false
         end || dict_mem p "text"
      then dict_get p "text" (JStr "")
      else scan_parts rest
  | JStr s :: _ => JStr s
  | _ :: rest => scan_parts rest
  end.

(** Format 1: the [message] object, its parts, then its own fields.
    [message_data.get] of line 254 needs a dict, so the [isinstance] test of
    line 264 holds whenever it is reached. *)
Definition from_message (params : dict) : result json :=
  let message_data := dict_get params "message" (JDict []) in
  if truthy message_data then
    md ← as_dict message_data;
    ps ← iterate (dict_get md "parts" (JList []));
    let user_text := scan_parts ps in
    if negb (truthy user_text) then
      Ok (py_or (dict_get md "text" (JStr "")) (dict_get md "content" (JStr "")))
    else Ok user_text
  else Ok (JStr "").

(** Formats 2-4: the top-level fields. *)
Definition top_level_text (params : dict) : json :=
  py_or (dict_get params "text" (JStr ""))
        (py_or (dict_get params "content" (JStr ""))
               (dict_get params "query" (JStr ""))).

Definition extract_user_text (params : dict) : result json :=
  user_text ← from_message params;
  let user_text :=
    if negb (truthy user_text) then top_level_text params else user_text in
  let user_text :=
    if negb (truthy user_text) then dict_get params "prompt" (JStr "")
    else user_text in
  let user_text :=
    if negb (truthy user_text) then dict_get params "input" (JStr "")
    else user_text in
  if negb (truthy user_text) then Err NoContentFound else Ok user_text.

(** ** server.py: authentication (lines 41-54) *)

(** [str.isspace] on a code point below 256. *)
Definition is_space (c : ascii) : bool :=
  let n := nat_of_ascii c in
  ((9 <=? n)%nat && (n <=? 13)%nat) || ((28 <=? n)%nat && (n <=? 32)%nat)
  || (n =? 133)%nat || (n =? 160)%nat.

Fixpoint lstrip (s : string) : string :=
  match s with
  | EmptyString => EmptyString
  | String c r => if is_space c then lstrip r else s
  end.

Fixpoint rstrip (s : string) : string :=
  match s with
  | EmptyString => EmptyString
  | String c r =>
      let r' := rstrip r in
      if is_space c && String.eqb r' "" then EmptyString else String c r'
  end.

(** [s.strip()] *)
Definition strip (s : string) : string := rstrip (lstrip s).

(** [s.replace(old, "")] for a non-empty [old]: occurrences are found left
    to right and do not overlap; [skip] counts the characters of the
    occurrence just found that are still to be dropped. *)
Fixpoint remove_from (old : string) (skip : nat) (s : string) : string :=
  match s with
  | EmptyString => EmptyString
  | String c r =>
      match skip with
      | S k => remove_from old k r
      | O =>
          if String.prefix old s
          then remove_from old (String.length old - 1) r
          else String c (remove_from old 0 r)
      end
  end.

Definition remove_all (old s : string) : string := remove_from old 0 s.

Definition verify_api_key (API_KEY : string) (authorization : option string)
  : result bool :=
  if String.eqb API_KEY "" then Ok true
  else
    match authorization with
    | None => Err (HTTPException 401 "Missing Authorization header")
    | Some h =>
        if String.eqb h "" then
          Err (HTTPException 401 "Missing Authorization header")
        else
          let token := strip (remove_all "Bearer " h) in
          if negb (String.eqb token API_KEY) then
            Err (HTTPException 401 "Invalid API key")
          else Ok true
    end.

(** ** server.py: the task store and the three operations *)

Record world := mkWorld {
  tasks : gmap string Task;     (* the module-level dict *)
  drawn : nat }.                (* how many identifiers uuid4 has produced *)

Definition with_tasks (w : world) (m : gmap string Task) : world :=
  {| tasks := m; drawn := drawn w |}.

(** Lines 296-303: one turn per part whose text is truthy. *)
Definition part_turn (r : string) (p : Part) : option lc_message :=
  match part_text p with
  | Some t =>
      if String.eqb t "" then None
      else Some (if String.eqb r "user" then HumanMessage t else AIMessage t)
  | None => None
  end.

Definition langchain_messages (h : list Message) : list lc_message :=
  flat_map (fun msg => omap (part_turn (role msg)) (parts msg)) h.

(** Lines 309-313, on the reversed list. *)
Fixpoint scan_reply (ms : list lc_message) : string :=
  match ms with
  | [] => ""
  | AIMessage c :: rest => if String.eqb c "" then scan_reply rest else c
  | _ :: rest => scan_reply rest
  end.

Definition response_text (ms : list lc_message) : string :=
  scan_reply (reverse ms).

(** Lines 306-330: what the run does to the task object once the awaited
    call has returned or raised. *)
Definition send_end (out : outcome) (task : Task) : Task :=
  match out with
  | Returned ms =>
      let agent_message := text_message "agent" (response_text ms) in
      {| id := id task; sessionId := sessionId task;
         status := {| state := COMPLETED; message := Some agent_message |};
         history := history task ++ [agent_message];
         artifacts := artifacts task ++ [response_artifact (response_text ms)] |}
  | Raised e =>
      {| id := id task; sessionId := sessionId task;
         status := {| state := FAILED;
                      message := Some (text_message "agent" ("Error: " +:+ e)) |};
         history := history task;
         artifacts := artifacts task |}
  end.

(** The task object after lines 290-292. *)
Definition open_run (user_text : string) (task : Task) : Task :=
  {| id := id task; sessionId := sessionId task;
     status := {| state := WORKING; message := None |};
     history := history task ++ [text_message "user" user_text];
     artifacts := artifacts task |}.

(** A run suspended at the await: the key of its task, the task object and
    the conversation handed to the executor. *)
Record pending := mkPending {
  run_id : string;
  run_task : Task;
  run_conversation : list lc_message }.

(** [params.get("id")] *)
Definition requested_id (params : dict) : json := dict_get params "id" JNull.

(** [params.get("sessionId") or params.get("session_id")] *)
Definition requested_session (params : dict) : json :=
  py_or (dict_get params "sessionId" JNull) (dict_get params "session_id" JNull).

Section Server.

(** [uuid4 n] is the string of the [n]-th identifier the generator returns. *)
Variable uuid4 : nat → string.

(** [v or str(uuid4())] *)
Definition or_uuid (v : json) (n : nat) : json * nat :=
  if truthy v then (v, n) else (JStr (uuid4 n), S n).

(** Lines 283-287: [task_id in tasks] hashes the id; a new [Task] is
    validated by pydantic before it is stored. *)
Definition get_or_create (task_id session_id : json) (w : world)
  : result (string * Task) * world :=
  if negb (hashable task_id) then (Err TypeError, w)
  else
    match task_id with
    | JStr k =>
        match tasks w !! k with
        | Some task => (Ok (k, task), w)
        | None =>
            match as_str session_id with
            | Ok sid =>
                let task := new_task k sid in
                (Ok (k, task), with_tasks w (<[k := task]> (tasks w)))
            | Err e => (Err e, w)
            end
        end
    | _ => (Err ValidationError, w)
    end.

(** Lines 245-303: everything up to the awaited call. *)
Definition send_begin (params : dict) (w : world) : result pending * world :=
  let '(task_id, n1) := or_uuid (requested_id params) (drawn w) in
  let '(session_id, n2) := or_uuid (requested_session params) n1 in
  let w0 := {| tasks := tasks w; drawn := n2 |} in
  match extract_user_text params with
  | Err e => (Err e, w0)
  | Ok user_text =>
      match get_or_create task_id session_id w0 with
      | (Err e, w1) => (Err e, w1)
      | (Ok (k, task), w1) =>
          match as_str user_text with
          | Err e => (Err e, w1)
          | Ok s =>
              let task := open_run s task in
              (Ok {| run_id := k; run_task := task;
                     run_conversation := langchain_messages (history task) |},
               with_tasks w1 (<[k := task]> (tasks w1)))
          end
      end
  end.

Definition handle_task_send (agent_graph : list lc_message → outcome)
    (params : dict) (w : world) : result Task * world :=
  match send_begin params w with
  | (Err e, w1) => (Err e, w1)
  | (Ok p, w1) =>
      let task := send_end (agent_graph (run_conversation p)) (run_task p) in
      (Ok task, with_tasks w1 (<[run_id p := task]> (tasks w1)))
  end.

End Server.

(** Lines 337-341 and 347-351: the lookup shared by get and cancel. *)
Definition find_task (params : dict) (w : world) : result (string * Task) :=
  let task_id := requested_id params in
  if negb (truthy task_id) then Err TaskNotFound
  else if negb (hashable task_id) then Err TypeError
  else
    match task_id with
    | JStr k =>
        match tasks w !! k with
        | Some task => Ok (k, task)
        | None => Err TaskNotFound
        end
    | _ => Err TaskNotFound
    end.

Definition handle_task_get (params : dict) (w : world) : result Task * world :=
  match find_task params w with
  | Ok (_, task) => (Ok task, w)
  | Err e => (Err e, w)
  end.

Definition cancel_task (task : Task) : Task :=
  {| id := id task; sessionId := sessionId task;
     status := {| state := CANCELED; message := None |};
     history := history task;
     artifacts := artifacts task |}.

Definition handle_task_cancel (params : dict) (w : world) : result Task * world :=
  match find_task params w with
  | Ok (k, task) =>
      let task := cancel_task task in
      (Ok task, with_tasks w (<[k := task]> (tasks w)))
  | Err e => (Err e, w)
  end.

(** ** Requests and reachable stores *)

Inductive request :=
  | Send (agent_graph : list lc_message → outcome) (params : dict)
  | Get (params : dict)
  | Cancel (params : dict).

Definition handle (uuid4 : nat → string) (r : request) (w : world)
  : result Task * world :=
  match r with
  | Send agent_graph params => handle_task_send uuid4 agent_graph params w
  | Get params => handle_task_get params w
  | Cancel params => handle_task_cancel params w
  end.

(** The store starts empty; every request, accepted or rejected, is a step. *)
Inductive reachable (uuid4 : nat → string) : world → Prop :=
  | reachable_init : reachable uuid4 {| tasks := ∅; drawn := 0 |}
  | reachable_step w r :
      reachable uuid4 w → reachable uuid4 (snd (handle uuid4 r w)).

(** Several requests in a row. *)
Definition run (uuid4 : nat → string) (rs : list request) (w : world) : world :=
  foldl (fun w r => snd (handle uuid4 r w)) w rs.

(** ** Predicates used in the statements *)

Definition is_str (v : json) : bool :=
  match v with JStr _ => true | _ => false end.

(** A field that is a string, or is absent or empty for Python's [or]. *)
Definition str_or_falsy (v : json) : bool := negb (truthy v) || is_str v.

(** The identifiers of the request have the type the [Task] model accepts. *)
Definition well_typed_ids (params : dict) : bool :=
  str_or_falsy (requested_id params) && str_or_falsy (requested_session params).

(** Every message the handlers put in a history has one text part. *)
Definition single_text (m : Message) : Prop := ∃ s, parts m = [text_part s].

Record store_inv (w : world) : Prop := {
  inv_key : ∀ k t, tasks w !! k = Some t → id t = k;
  inv_parts : ∀ k t, tasks w !! k = Some t → Forall single_text (history t) }.

(** ** Specification vocabulary: append-only stores *)

(** [w'] keeps every task of [w] under its key, with the same id and with
    history and artifacts only extended at the end. *)
Definition extends (w w' : world) : Prop :=
  ∀ k t, tasks w !! k = Some t →
    ∃ t', tasks w' !! k = Some t' ∧ id t' = id t ∧
          history t `prefix_of` history t' ∧
          artifacts t `prefix_of` artifacts t'.

(** ** Specification vocabulary: the conversation *)

(** The text of the first part of a message that carries text. *)
Definition first_text (m : Message) : option string :=
  head (omap part_text (parts m)).

(** User messages become user turns, all others agent turns. *)
Definition role_turn (r t : string) : lc_message :=
  if String.eqb r "user" then HumanMessage t else AIMessage t.

(** The projection as C9 words it: every message that has a text part
    gives one turn, whatever the text. *)
Definition every_message_a_turn (h : list Message) : list lc_message :=
  omap (fun m => role_turn (role m) <$> first_text m) h.

(** The turn of a message whose first text is not empty. *)
Definition projected_turn (m : Message) : option lc_message :=
  t ← first_text m;
  if String.eqb t "" then None else Some (role_turn (role m) t).

(** ** Specification vocabulary: the extraction rules *)

(** The text a field holds: a string is its own text, anything else none. *)
Definition text_of (v : json) : string :=
  match v with JStr s => s | _ => "" end.

Fixpoint first_nonempty (l : list string) : string :=
  match l with
  | [] => ""
  | s :: rest => if String.eqb s "" then first_nonempty rest else s
  end.

(** The first of two texts that is not empty. *)
Definition orelse (a b : string) : string := if String.eqb a "" then b else a.

(** Rule 1 of C2: a part whose declared type is "text", or which carries
    a text field, or which is a plain string. *)
Definition is_text_part (v : json) : bool :=
  match v with
  | JDict p =>
      match dict_get p "type" JNull with
      | JStr t => String.eqb t "text"
      | _ => false
      end || dict_mem p "text"
  | JStr _ => true
  | _ => false
  end.

Definition part_text_of (v : json) : string :=
  match v with
  | JDict p => text_of (dict_get p "text" (JStr ""))
  | JStr s => s
  | _ => ""
  end.

Definition message_object (params : dict) : dict :=
  match dict_lookup params "message" with
  | Some (JDict md) => md
  | _ => []
  end.

Definition rule_parts (params : dict) : string :=
  match dict_lookup (message_object params) "parts" with
  | Some (JList ps) =>
      match List.find is_text_part ps with
      | Some part => part_text_of part
      | None => ""
      end
  | _ => ""
  end.

(** Rule 2: the message object's own text or content. *)
Definition rule_message (params : dict) : string :=
  first_nonempty
    [text_of (dict_get (message_object params) "text" (JStr ""));
     text_of (dict_get (message_object params) "content" (JStr ""))].

(** Rule 3: a top-level text, content or query. *)
Definition rule_top_level (params : dict) : string :=
  first_nonempty
    [text_of (dict_get params "text" (JStr ""));
     text_of (dict_get params "content" (JStr ""));
     text_of (dict_get params "query" (JStr ""))].

(** Rules 4 and 5: a top-level prompt, a top-level input. *)
Definition rule_prompt (params : dict) : string :=
  text_of (dict_get params "prompt" (JStr "")).

Definition rule_input (params : dict) : string :=
  text_of (dict_get params "input" (JStr "")).

(** The extraction as C2 words it: the rules in priority order, the first
    non-empty result, NoContentFound when there is none. *)
Definition extraction_by_rules (params : dict) : result json :=
  let s := first_nonempty
             [rule_parts params; rule_message params; rule_top_level params;
              rule_prompt params; rule_input params] in
  if String.eqb s "" then Err NoContentFound else Ok (JStr s).

(** Payloads of the shapes the rules describe: [message] is absent, empty
    or an object whose [parts] is absent or a list, and every field a rule
    reads holds a string or is absent or empty. *)
Definition part_shaped (v : json) : bool :=
  match v with
  | JDict p => str_or_falsy (dict_get p "text" (JStr ""))
  | _ => true
  end.

Definition message_shaped (v : json) : bool :=
  match v with
  | JDict md =>
      match dict_lookup md "parts" with
      | None => true
      | Some (JList ps) => forallb part_shaped ps
      | Some _ => false
      end
      && str_or_falsy (dict_get md "text" (JStr ""))
      && str_or_falsy (dict_get md "content" (JStr ""))
  | _ => negb (truthy v)
  end.

Definition well_shaped (params : dict) : bool :=
  message_shaped (dict_get params "message" (JDict []))
  && forallb (fun k => str_or_falsy (dict_get params k (JStr "")))
       ["text"; "content"; "query"; "prompt"; "input"].

(** ** Specification vocabulary: the Authorization header *)

(** [old] occurs somewhere in [s]. *)
Fixpoint occurs (old s : string) : bool :=
  String.prefix old s
  || match s with
     | EmptyString => false
     | String _ r => occurs old r
     end.

(** The header value as C8 words it: an optional "Bearer " prefix
    stripped, nothing else touched. *)
Definition without_bearer_prefix (h : string) : string :=
  if String.prefix "Bearer " h then String.substring 7 (String.length h - 7) h
  else h.

(** ** Sample requests, executors and worlds *)

Definition sample_uuid4 (n : nat) : string :=
  "uuid-" +:+ String (ascii_of_nat (48 + n)) EmptyString.

(** The body sent by [test_task_send_rest], with any text. *)
Definition text_request (s : string) : dict :=
  [("message",
    JDict [("role", JStr "user");
           ("parts", JList [JDict [("type", JStr "text"); ("text", JStr s)]])])].

(** The same request addressed to task [k]. *)
Definition text_request_for (k s : string) : dict :=
  ("id", JStr k) :: text_request s.

Definition empty_world : world := {| tasks := ∅; drawn := 0 |}.

(** An executor that answers [reply] after the turns it was given. *)
Definition replying (reply : string) (conv : list lc_message) : outcome :=
  Returned (conv ++ [AIMessage reply]).

(** An executor whose call raises. *)
Definition failing (description : string) (conv : list lc_message) : outcome :=
  Raised description.

(** An executor whose only new message is a tool request without content. *)
Definition silent (conv : list lc_message) : outcome :=
  Returned [HumanMessage "hi"; AIMessage ""].

(** The run of [text_request_for "t1" "hi"] on the empty store, suspended. *)
Definition sample_run : pending :=
  {| run_id := "t1";
     run_task := open_run "hi" (new_task "t1" (sample_uuid4 0));
     run_conversation := [HumanMessage "hi"] |}.

Definition sample_world : world :=
  {| tasks := {[ "t1" := run_task sample_run ]}; drawn := 1 |}.

(** The store after one completed run of task "t1". *)
Definition completed_world : world :=
  snd (handle sample_uuid4
         (Send (replying "100") (text_request_for "t1" "hi")) empty_world).

(** The store after a run of task "t1" in which the executor gave no
    content. *)
Definition silent_world : world :=
  snd (handle sample_uuid4 (Send silent (text_request_for "t1" "hi"))
         empty_world).

(** ** server.py: the endpoints (lines 143-208) *)

(** [Optional[str | int]], the id of a JSON-RPC envelope. *)
Inductive rpc_ident :=
  | IdStr (s : string)
  | IdInt (z : Z).

(** [JSONRPCRequest] of models.py, as pydantic hands it to the endpoint. *)
Record JSONRPCRequest := mkJSONRPCRequest {
  req_jsonrpc : string;
  req_method : string;
  req_params : option dict;
  req_id : option rpc_ident }.

(** The text of an error: a literal, or [str(e)] of an exception, or that
    of the decoding error [request.json()] raises on a body that is not
    JSON. *)
Inductive message_text :=
  | Literal (s : string)
  | StrOf (e : exn)
  | StrOfDecodeError.

(** The dict [{"code": ..., "message": ...}]. *)
Record JSONRPCError := mkJSONRPCError {
  code : Z;
  error_message : message_text }.

(** [JSONRPCResponse] of models.py. *)
Record JSONRPCResponse := mkJSONRPCResponse {
  resp_jsonrpc : string;
  resp_result : option Task;
  resp_error : option JSONRPCError;
  resp_id : option rpc_ident }.

(** What an endpoint answers with. *)
Inductive content :=
  | RpcContent (r : JSONRPCResponse)
  | TaskContent (t : Task)
  | ErrorContent (error : message_text) (detail : string)
  | DetailContent (detail : string).

Record response := mkResponse {
  status_code : Z;
  body : content }.

(** [JSONRPCResponse(id=..., result=result)] and
    [JSONRPCResponse(id=..., error={...})]. *)
Definition rpc_result (i : option rpc_ident) (t : Task) : JSONRPCResponse :=
  {| resp_jsonrpc := "2.0"; resp_result := Some t; resp_error := None;
     resp_id := i |}.

Definition rpc_error (i : option rpc_ident) (c : Z) (m : message_text)
  : JSONRPCResponse :=
  {| resp_jsonrpc := "2.0"; resp_result := None;
     resp_error := Some {| code := c; error_message := m |};
     resp_id := i |}.

Section Endpoints.

Variable API_KEY : string.
Variable uuid4 : nat → string.
Variable agent_graph : list lc_message → outcome.

(** Lines 150-172, the body of the JSON-RPC endpoint.  [params or {}] is
    the empty dict for a missing and for an empty [params]. *)
Definition handle_jsonrpc (rpc_request : JSONRPCRequest) (w : world)
  : JSONRPCResponse * world :=
  let method := req_method rpc_request in
  let params := default [] (req_params rpc_request) in
  let answer (r : result Task * world) :=
    match r with
    | (Ok t, w') => (rpc_result (req_id rpc_request) t, w')
    | (Err e, w') => (rpc_error (req_id rpc_request) (-32000) (StrOf e), w')
    end in
  if String.eqb method "tasks/send" then
    answer (handle_task_send uuid4 agent_graph params w)
  else if String.eqb method "tasks/get" then
    answer (handle_task_get params w)
  else if String.eqb method "tasks/cancel" then
    answer (handle_task_cancel params w)
  else
    (rpc_error (req_id rpc_request) (-32601)
       (Literal ("Method not found: " +:+ method)), w).

(** Lines 181-192, the body of [POST /tasks/send].  [request_json] is
    [None] when the body is not JSON; [handle_task_send] starts with
    [params.get], which only a dict has. *)
Definition task_send (request_json : option json) (w : world)
  : response * world :=
  let failed (m : message_text) :=
    {| status_code := 400;
       body := ErrorContent m "Failed to process request" |} in
  match request_json with
  | None => (failed StrOfDecodeError, w)
  | Some v =>
      match as_dict v with
      | Err e => (failed (StrOf e), w)
      | Ok params =>
          match handle_task_send uuid4 agent_graph params w with
          | (Ok t, w') => ({| status_code := 200; body := TaskContent t |}, w')
          | (Err e, w') => (failed (StrOf e), w')
          end
      end
  end.

(** Lines 200 and 208: no [try] around the handler, so what it raises
    leaves the endpoint. *)
Definition task_get (task_id : string) (w : world) : result response * world :=
  match handle_task_get [("id", JStr task_id)] w with
  | (Ok t, w') => (Ok {| status_code := 200; body := TaskContent t |}, w')
  | (Err e, w') => (Err e, w')
  end.

Definition task_cancel (task_id : string) (w : world)
  : result response * world :=
  match handle_task_cancel [("id", JStr task_id)] w with
  | (Ok t, w') => (Ok {| status_code := 200; body := TaskContent t |}, w')
  | (Err e, w') => (Err e, w')
  end.

(** The four routes that declare [Depends(verify_api_key)]. *)
Inductive http_request :=
  | PostRoot (rpc_request : JSONRPCRequest)
  | PostTasksSend (request_json : option json)
  | GetTask (task_id : string)
  | PostTaskCancel (task_id : string).

(** A route: the dependency runs first; the [HTTPException] it raises is
    answered by the framework with its status and detail, and the endpoint
    is not entered.  [Err] is an exception that leaves the endpoint. *)
Definition serve (authorization : option string) (r : http_request) (w : world)
  : result response * world :=
  match verify_api_key API_KEY authorization with
  | Err (HTTPException st detail) =>
      (Ok {| status_code := st; body := DetailContent detail |}, w)
  | Err e => (Err e, w)
  | Ok _ =>
      match r with
      | PostRoot rpc_request =>
          let '(reply, w') := handle_jsonrpc rpc_request w in
          (Ok {| status_code := 200; body := RpcContent reply |}, w')
      | PostTasksSend request_json =>
          let '(reply, w') := task_send request_json w in (Ok reply, w')
      | GetTask task_id => task_get task_id w
      | PostTaskCancel task_id => task_cancel task_id w
      end
  end.

End Endpoints.

(** ** models.py: what [model_dump(exclude_none=True)] gives for a message *)

Definition opt_field (k : string) (o : option string) : dict :=
  match o with
  | Some s => [(k, JStr s)]
  | None => []
  end.

Definition dump_part (p : Part) : json :=
  JDict (("type", JStr (part_type p))
         :: opt_field "text" (part_text p)
         ++ opt_field "mimeType" (part_mimeType p)
         ++ opt_field "data" (part_data p)).

Definition dump_message (m : Message) : json :=
  JDict [("role", JStr (role m)); ("parts", JList (map dump_part (parts m)))].

(** ** agent/graph.py: the knowledge tool (lines 56-74) *)

(** [str.lower] on a code point below 256; the strings of this tool are
    sequences of such code points. *)
Definition lower_char (c : ascii) : ascii :=
  let n := nat_of_ascii c in
  if ((65 <=? n)%nat && (n <=? 90)%nat)
     || ((192 <=? n)%nat && (n <=? 222)%nat && negb (n =? 215)%nat)
  then ascii_of_nat (n + 32) else c.

Fixpoint lower (s : string) : string :=
  match s with
  | EmptyString => EmptyString
  | String c r => String (lower_char c) (lower r)
  end.

(** The dict [knowledge], in the order of its literal. *)
Definition knowledge : list (string * string) :=
  [("servicenow",
    "ServiceNow is a cloud computing platform that provides IT service management (ITSM) and automates IT business management.");
   ("a2a protocol",
    "The Agent-to-Agent (A2A) protocol is Google's open protocol for enabling AI agents to communicate and collaborate with each other.");
   ("langgraph",
    "LangGraph is a library for building stateful, multi-actor applications with LLMs, built on top of LangChain.");
   ("default",
    "I found some general information related to your query. Please be more specific for detailed results.")].

(** [table[k]] for a key the table has. *)
Fixpoint table_get (table : list (string * string)) (k : string) : string :=
  match table with
  | [] => ""
  | (k', v) :: rest => if String.eqb k' k then v else table_get rest k
  end.

(** The loop over [knowledge.items()]: the value of the first key that
    occurs in the query. *)
Fixpoint first_hit (items : list (string * string)) (q : string)
  : option string :=
  match items with
  | [] => None
  | (key, value) :: rest => if occurs key q then Some value else first_hit rest q
  end.

Definition search_knowledge (query : string) : string :=
  let query_lower := lower query in
  match first_hit knowledge query_lower with
  | Some value => value
  | None => table_get knowledge "default"
  end.

(** A generator that never repeats: [n] marks, then an end. *)
Fixpoint tally_uuid4 (n : nat) : string :=
  match n with
  | O => "u"
  | S n' => String "x" (tally_uuid4 n')
  end.

(** ** Callers that do not guess identifiers *)

(** The id a submission brings is not one the generator has yet to
    return. *)
Definition guesses_no_id (uuid4 : nat → string) (r : request) (w : world)
  : Prop :=
  match r with
  | Send _ params =>
      ∀ n, requested_id params = JStr (uuid4 n) → (n < drawn w)%nat
  | _ => True
  end.

(** The stores reached when no submission guesses an identifier. *)
Inductive reachable_unguessed (uuid4 : nat → string) : world → Prop :=
  | unguessed_init : reachable_unguessed uuid4 {| tasks := ∅; drawn := 0 |}
  | unguessed_step w r :
      reachable_unguessed uuid4 w → guesses_no_id uuid4 r w →
      reachable_unguessed uuid4 (snd (handle uuid4 r w)).

(** The store after a caller has submitted under the id "uuid-1". *)
Definition supplied_world : world :=
  snd (handle sample_uuid4
         (Send (replying "100") (text_request_for "uuid-1" "hi")) empty_world).

(** Two tasks that agree on every field of the model. *)
Definition same_content (t1 t2 : Task) : Prop :=
  id t1 = id t2 ∧ sessionId t1 = sessionId t2 ∧
  state (status t1) = state (status t2) ∧
  message (status t1) = message (status t2) ∧
  history t1 = history t2 ∧ artifacts t1 = artifacts t2.

(** ** Vocabulary for the further properties *)

(** The task with another status. *)
Definition with_status (st : TaskStatus) (task : Task) : Task :=
  {| id := id task; sessionId := sessionId task; status := st;
     history := history task; artifacts := artifacts task |}.

(** The texts of the agent messages of a history, oldest first. *)
Definition agent_replies (h : list Message) : list string :=
  omap (fun m => if String.eqb (role m) "agent" then first_text m else None) h.

(** How status, history and artifacts of a stored task fit together. *)
Record coherent (t : Task) : Prop := {
  coh_artifacts : artifacts t = map response_artifact (agent_replies (history t));
  coh_completed :
    state (status t) = COMPLETED →
    message (status t) = last (history t) ∧
    ∃ reply, last (history t) = Some (text_message "agent" reply);
  coh_submitted : state (status t) = SUBMITTED → history t = [] }.

(** The text the normaliser reads from a message once it is dumped: that of
    the first part that has type "text" or a text. *)
Definition read_as_text (p : Part) : bool :=
  String.eqb (part_type p) "text"
  || match part_text p with Some _ => true | None => false end.

Definition wire_text (m : Message) : string :=
  match List.find read_as_text (parts m) with
  | Some p => default "" (part_text p)
  | None => ""
  end.

Definition starts_with_space (s : string) : bool :=
  match s with
  | EmptyString => false
  | String c _ => is_space c
  end.

Fixpoint ends_with_space (s : string) : bool :=
  match s with
  | EmptyString => false
  | String c EmptyString => is_space c
  | String _ r => ends_with_space r
  end.

(** * Properties *)

(** ** Normalisation and the start of a run *)

Lemma truthy_str s : truthy (JStr s) = true ↔ s ≠ "".
Proof.
  simpl. destruct (String.eqb_spec s ""); simpl; split; congruence.
Qed.

Lemma extract_user_text_truthy params v :
  extract_user_text params = Ok v → truthy v = true.
Proof.
  unfold extract_user_text, mbind, result_bind.
  destruct (from_message params) as [u|]; [|discriminate].
  repeat match goal with
         | |- context [if negb (truthy ?x) then _ else _] =>
             let E := fresh "E" in destruct (truthy x) eqn:E; simpl
         end;
    intros; simplify_eq; done.
Qed.

Lemma extract_user_text_nonempty params s :
  extract_user_text params = Ok (JStr s) → s ≠ "".
Proof. intros H. apply truthy_str. by eapply extract_user_text_truthy. Qed.

Section ServerFacts.

Variable uuid4 : nat → string.

Lemma or_uuid_str v n :
  str_or_falsy v = true → ∃ k, fst (or_uuid uuid4 v n) = JStr k.
Proof.
  unfold str_or_falsy, or_uuid. destruct (truthy v); simpl; [|by eauto].
  destruct v; try discriminate. eauto.
Qed.

(** What a run that reaches the await has done. *)
Lemma send_begin_inv params w p w1 :
  send_begin uuid4 params w = (Ok p, w1) →
  ∃ s sid,
    extract_user_text params = Ok (JStr s) ∧
    fst (or_uuid uuid4 (requested_id params) (drawn w)) = JStr (run_id p) ∧
    run_task p =
      open_run s (default (new_task (run_id p) sid) (tasks w !! run_id p)) ∧
    run_conversation p = langchain_messages (history (run_task p)) ∧
    tasks w1 = <[run_id p := run_task p]> (tasks w).
Proof.
  unfold send_begin.
  destruct (or_uuid uuid4 (requested_id params) (drawn w)) as [task_id n1].
  destruct (or_uuid uuid4 (requested_session params) n1) as [session_id n2].
  destruct (extract_user_text params) as [user_text|]; [|discriminate].
  unfold get_or_create.
  destruct (hashable task_id); simpl; [|discriminate].
  destruct task_id as [| | |k| |]; try discriminate. simpl.
  destruct (tasks w !! k) as [t|] eqn:Hk.
  - destruct user_text; simpl; try discriminate.
    intros [= <- <-]. exists s, "". simpl. rewrite Hk. done.
  - destruct session_id as [| | |sid| |]; simpl; try discriminate.
    destruct user_text; simpl; try discriminate.
    intros [= <- <-]. exists s, sid. simpl. rewrite Hk. simpl.
    by rewrite insert_insert_eq.
Qed.

(** A request with text and well-typed identifiers reaches the await. *)
Lemma send_begin_accepts params w s :
  extract_user_text params = Ok (JStr s) →
  well_typed_ids params = true →
  ∃ p w1, send_begin uuid4 params w = (Ok p, w1).
Proof.
  intros Hx Hids. unfold well_typed_ids in Hids.
  apply andb_true_iff in Hids as [Hid Hsid].
  unfold send_begin. rewrite Hx.
  destruct (or_uuid uuid4 (requested_id params) (drawn w)) as [task_id n1] eqn:E1.
  destruct (or_uuid uuid4 (requested_session params) n1) as [session_id n2] eqn:E2.
  assert (∃ k, task_id = JStr k) as [k ->].
  { destruct (or_uuid_str _ (drawn w) Hid) as [k H]. rewrite E1 in H. eauto. }
  assert (∃ sid, session_id = JStr sid) as [sid ->].
  { destruct (or_uuid_str _ n1 Hsid) as [k' H]. rewrite E2 in H. eauto. }
  unfold get_or_create. simpl.
  destruct (tasks w !! k); simpl; eauto.
Qed.

(** An existing task makes the session identifier irrelevant. *)
Lemma send_begin_accepts_known params w s k t :
  extract_user_text params = Ok (JStr s) →
  requested_id params = JStr k → k ≠ "" →
  tasks w !! k = Some t →
  ∃ p w1, send_begin uuid4 params w = (Ok p, w1) ∧ run_id p = k.
Proof.
  intros Hx Hid Hk Ht. unfold send_begin. rewrite Hx, Hid.
  unfold or_uuid at 1. apply truthy_str in Hk. rewrite Hk.
  destruct (or_uuid uuid4 (requested_session params) (drawn w)) as [session_id n2].
  unfold get_or_create. simpl. rewrite Ht. simpl. eauto.
Qed.

Lemma handle_task_send_begin agent_graph params w :
  handle_task_send uuid4 agent_graph params w =
    match send_begin uuid4 params w with
    | (Err e, w1) => (Err e, w1)
    | (Ok p, w1) =>
        let task := send_end (agent_graph (run_conversation p)) (run_task p) in
        (Ok task, with_tasks w1 (<[run_id p := task]> (tasks w1)))
    end.
Proof. reflexivity. Qed.

(** A submission that returns a task went through [send_begin] and
    [send_end], and wrote the task back under its key. *)
Lemma handle_task_send_Ok agent_graph params w t w' :
  handle_task_send uuid4 agent_graph params w = (Ok t, w') →
  ∃ p w1,
    send_begin uuid4 params w = (Ok p, w1) ∧
    t = send_end (agent_graph (run_conversation p)) (run_task p) ∧
    tasks w' = <[run_id p := t]> (tasks w).
Proof.
  rewrite handle_task_send_begin.
  destruct (send_begin uuid4 params w) as [[p|e] w1] eqn:Hb; [|discriminate].
  intros [= <- <-]. exists p, w1. split_and!; [done..|].
  destruct (send_begin_inv _ _ _ _ Hb) as (s & sid & _ & _ & _ & _ & ->).
  simpl. by rewrite insert_insert_eq.
Qed.

(** A rejected submission leaves every stored task as it was.  It adds a
    task, one without history, only when pydantic rejects the extracted
    value after the task has been created. *)
Lemma send_begin_Err params w e w1 :
  send_begin uuid4 params w = (Err e, w1) →
  tasks w1 = tasks w ∨
  ∃ k sid,
    fst (or_uuid uuid4 (requested_id params) (drawn w)) = JStr k ∧
    tasks w !! k = None ∧
    tasks w1 = <[k := new_task k sid]> (tasks w) ∧
    e = ValidationError.
Proof.
  unfold send_begin.
  destruct (or_uuid uuid4 (requested_id params) (drawn w)) as [task_id n1].
  destruct (or_uuid uuid4 (requested_session params) n1) as [session_id n2].
  destruct (extract_user_text params) as [user_text|]; [|intros [= <- <-]; by left].
  unfold get_or_create.
  destruct (hashable task_id); simpl; [|intros [= <- <-]; by left].
  destruct task_id as [| | |k| |]; try (intros [= <- <-]; by left). simpl.
  destruct (tasks w !! k) as [t|] eqn:Hk.
  - destruct user_text; simpl; intros; simplify_eq; by left.
  - destruct session_id as [| | |sid| |]; simpl; try (intros [= <- <-]; by left).
    destruct user_text; simpl; intros; simplify_eq; right; exists k, sid; done.
Qed.

End ServerFacts.

(** ** Append-only tasks *)

Lemma extends_refl w : extends w w.
Proof. intros k t Ht. exists t. done. Qed.

Lemma extends_trans w1 w2 w3 : extends w1 w2 → extends w2 w3 → extends w1 w3.
Proof.
  intros H12 H23 k t Ht.
  destruct (H12 k t Ht) as (t2 & Ht2 & Hid2 & Hh2 & Ha2).
  destruct (H23 k t2 Ht2) as (t3 & Ht3 & Hid3 & Hh3 & Ha3).
  exists t3. split_and!; [done|congruence|by etrans..].
Qed.

(** Replacing the task under [k] by a grown version of itself. *)
Lemma extends_insert w w' k t' :
  tasks w' = <[k := t']> (tasks w) →
  (∀ t, tasks w !! k = Some t →
        id t' = id t ∧ history t `prefix_of` history t' ∧
        artifacts t `prefix_of` artifacts t') →
  extends w w'.
Proof.
  intros Hw' Hgrow k0 t Ht. rewrite Hw'.
  destruct (decide (k = k0)) as [->|Hne].
  - rewrite lookup_insert_eq. exists t'. split; [done|]. by apply Hgrow.
  - rewrite lookup_insert_ne by done. exists t. done.
Qed.

Lemma send_end_grows out t :
  id (send_end out t) = id t ∧
  history t `prefix_of` history (send_end out t) ∧
  artifacts t `prefix_of` artifacts (send_end out t).
Proof.
  destruct out; simpl; split_and!; try done; by apply prefix_app_r.
Qed.

Lemma find_task_Ok params w k t :
  find_task params w = Ok (k, t) →
  requested_id params = JStr k ∧ k ≠ "" ∧ tasks w !! k = Some t.
Proof.
  unfold find_task.
  destruct (truthy (requested_id params)) eqn:Ht; simpl; [|discriminate].
  destruct (hashable (requested_id params)); simpl; [|discriminate].
  destruct (requested_id params) as [| | |k'| |]; try discriminate.
  destruct (tasks w !! k') eqn:Hk; [|discriminate].
  intros [= <- <-]. split_and!; [done| |done]. by apply truthy_str.
Qed.

Section StoreFacts.

Variable uuid4 : nat → string.

Lemma extends_send agent_graph params w :
  extends w (snd (handle_task_send uuid4 agent_graph params w)).
Proof.
  destruct (handle_task_send uuid4 agent_graph params w) as [[t|e] w'] eqn:H.
  - destruct (handle_task_send_Ok _ _ _ _ _ _ H) as (p & w1 & Hb & -> & Hw').
    destruct (send_begin_inv _ _ _ _ _ Hb) as (s & sid & _ & _ & Hp & _ & _).
    eapply extends_insert; [exact Hw'|]. intros t0 Ht0.
    rewrite Hp, Ht0. simpl.
    destruct (send_end_grows (agent_graph (run_conversation p))
                (open_run s t0)) as (-> & Hh & Ha).
    split_and!; [done| |done].
    etrans; [|exact Hh]. simpl. by apply prefix_app_r.
  - rewrite handle_task_send_begin in H.
    destruct (send_begin uuid4 params w) as [[p|e'] w1] eqn:Hb; [discriminate|].
    injection H as <- <-. simpl.
    destruct (send_begin_Err _ _ _ _ _ Hb) as [Hw|(k & sid & _ & Hk & Hw & _)].
    + intros k t Ht. exists t. by rewrite Hw.
    + eapply extends_insert; [exact Hw|]. intros t Ht. congruence.
Qed.

Lemma extends_get params w : extends w (snd (handle_task_get params w)).
Proof.
  unfold handle_task_get. destruct (find_task params w) as [[k t]|];
    apply extends_refl.
Qed.

Lemma extends_cancel params w : extends w (snd (handle_task_cancel params w)).
Proof.
  unfold handle_task_cancel.
  destruct (find_task params w) as [[k t]|] eqn:Hf; [|apply extends_refl].
  apply find_task_Ok in Hf as (_ & _ & Hk). simpl.
  eapply extends_insert; [done|]. intros t0 Ht0. by simplify_eq.
Qed.

Lemma extends_handle r w : extends w (snd (handle uuid4 r w)).
Proof.
  destruct r; simpl;
    [apply extends_send | apply extends_get | apply extends_cancel].
Qed.

Lemma extends_run rs w : extends w (run uuid4 rs w).
Proof.
  revert w. induction rs as [|r rs IH]; intros w; simpl.
  - apply extends_refl.
  - eapply extends_trans; [apply extends_handle | apply IH].
Qed.

(** ** The store invariant *)

Lemma store_inv_insert w w' k t :
  store_inv w → tasks w' = <[k := t]> (tasks w) →
  id t = k → Forall single_text (history t) →
  store_inv w'.
Proof.
  intros [Hkey Hparts] Hw' Hid Hh. split.
  - intros k0 t0. rewrite Hw'. destruct (decide (k = k0)) as [->|].
    + rewrite lookup_insert_eq. by intros [= <-].
    + rewrite lookup_insert_ne by done. apply Hkey.
  - intros k0 t0. rewrite Hw'. destruct (decide (k = k0)) as [->|].
    + rewrite lookup_insert_eq. by intros [= <-].
    + rewrite lookup_insert_ne by done. apply Hparts.
Qed.

Lemma store_inv_tasks w w' : store_inv w → tasks w' = tasks w → store_inv w'.
Proof. intros [Hkey Hparts] Hw'. split; rewrite Hw'; done. Qed.

Lemma single_text_message r s : single_text (text_message r s).
Proof. by exists s. Qed.

Lemma store_inv_send agent_graph params w :
  store_inv w → store_inv (snd (handle_task_send uuid4 agent_graph params w)).
Proof.
  intros Hinv.
  destruct (handle_task_send uuid4 agent_graph params w) as [[t|e] w'] eqn:H.
  - destruct (handle_task_send_Ok _ _ _ _ _ _ H) as (p & w1 & Hb & -> & Hw').
    destruct (send_begin_inv _ _ _ _ _ Hb) as (s & sid & _ & _ & Hp & _ & _).
    assert (id (run_task p) = run_id p ∧ Forall single_text (history (run_task p)))
      as [Hid Hh].
    { rewrite Hp. simpl. destruct (tasks w !! run_id p) as [t0|] eqn:Ht0; simpl.
      - split; [by eapply inv_key|]. apply Forall_app. split.
        + by eapply inv_parts.
        + repeat constructor. apply single_text_message.
      - split; [done|]. repeat constructor. apply single_text_message. }
    eapply store_inv_insert; [done|exact Hw'| |]; simpl.
    + by destruct (agent_graph (run_conversation p)).
    + destruct (agent_graph (run_conversation p)); simpl; [|done].
      apply Forall_app. split; [done|]. repeat constructor.
      apply single_text_message.
  - rewrite handle_task_send_begin in H.
    destruct (send_begin uuid4 params w) as [[p|e'] w1] eqn:Hb; [discriminate|].
    injection H as <- <-. simpl.
    destruct (send_begin_Err _ _ _ _ _ Hb) as [Hw|(k & sid & _ & _ & Hw & _)].
    + by eapply store_inv_tasks.
    + eapply store_inv_insert; [done|exact Hw|done..].
Qed.

Lemma store_inv_handle r w : store_inv w → store_inv (snd (handle uuid4 r w)).
Proof.
  intros Hinv. destruct r as [ag params|params|params]; simpl.
  - by apply store_inv_send.
  - unfold handle_task_get. by destruct (find_task params w) as [[k t]|].
  - unfold handle_task_cancel.
    destruct (find_task params w) as [[k t]|] eqn:Hf; [|done].
    apply find_task_Ok in Hf as (_ & _ & Ht). simpl.
    eapply store_inv_insert; [done|done| |]; simpl.
    + by eapply inv_key.
    + by eapply inv_parts.
Qed.

Lemma reachable_store_inv w : reachable uuid4 w → store_inv w.
Proof.
  induction 1 as [|w r _ IH].
  - split; intros *; simpl; by rewrite ?lookup_empty.
  - by apply store_inv_handle.
Qed.

Lemma reachable_run rs w : reachable uuid4 w → reachable uuid4 (run uuid4 rs w).
Proof.
  revert w. induction rs as [|r rs IH]; intros w Hw; simpl; [done|].
  apply IH. by constructor.
Qed.

(** ** The empty string is never a key *)

Hypothesis uuid4_nonempty : ∀ n, uuid4 n ≠ "".

Lemma or_uuid_nonempty v n k : fst (or_uuid uuid4 v n) = JStr k → k ≠ "".
Proof.
  unfold or_uuid. destruct (truthy v) eqn:E; simpl.
  - intros ->. by apply truthy_str.
  - intros [= <-]. apply uuid4_nonempty.
Qed.

Lemma empty_key_handle r w :
  tasks w !! "" = None → tasks (snd (handle uuid4 r w)) !! "" = None.
Proof.
  intros Hw. destruct r as [ag params|params|params]; simpl.
  - destruct (handle_task_send uuid4 ag params w) as [[t|e] w'] eqn:H.
    + destruct (handle_task_send_Ok _ _ _ _ _ _ H) as (p & w1 & Hb & _ & Hw').
      destruct (send_begin_inv _ _ _ _ _ Hb) as (s & sid & _ & Hk & _).
      apply or_uuid_nonempty in Hk. simpl. rewrite Hw'.
      by rewrite lookup_insert_ne.
    + rewrite handle_task_send_begin in H.
      destruct (send_begin uuid4 params w) as [[p|e'] w1] eqn:Hb; [discriminate|].
      injection H as <- <-. simpl.
      destruct (send_begin_Err _ _ _ _ _ Hb) as [Hw'|(k & sid & Hk & _ & Hw' & _)];
        rewrite Hw'; [done|].
      apply or_uuid_nonempty in Hk. by rewrite lookup_insert_ne.
  - unfold handle_task_get. by destruct (find_task params w) as [[k t]|].
  - unfold handle_task_cancel.
    destruct (find_task params w) as [[k t]|] eqn:Hf; [|done].
    apply find_task_Ok in Hf as (_ & Hk & _). simpl.
    by rewrite lookup_insert_ne.
Qed.

Lemma reachable_empty_key w : reachable uuid4 w → tasks w !! "" = None.
Proof.
  induction 1 as [|w r _ IH]; [done|]. by apply empty_key_handle.
Qed.

End StoreFacts.

Lemma sample_uuid4_nonempty n : sample_uuid4 n ≠ "".
Proof. done. Qed.

Lemma sample_run_begins :
  send_begin sample_uuid4 (text_request_for "t1" "hi") empty_world
  = (Ok sample_run, sample_world).
Proof. reflexivity. Qed.

(** ** The reply taken from the executor's messages *)

Lemma scan_reply_empty ms :
  (∀ c, AIMessage c ∈ ms → c = "") → scan_reply ms = "".
Proof.
  induction ms as [|m ms IH]; intros H; simpl; [done|].
  assert (scan_reply ms = "") as Hms.
  { apply IH. intros c Hc. apply H. by right. }
  destruct m as [c|c|c|c]; try done.
  rewrite (H c) by left. done.
Qed.

Lemma response_text_empty ms :
  (∀ c, AIMessage c ∈ ms → c = "") → response_text ms = "".
Proof.
  intros H. apply scan_reply_empty. intros c Hc. apply H.
  by apply elem_of_reverse.
Qed.

(** The reply is the content of the last AI message that has content. *)
Lemma response_text_last ms c ms' :
  c ≠ "" → (∀ c', AIMessage c' ∈ ms' → c' = "") →
  response_text (ms ++ AIMessage c :: ms') = c.
Proof.
  intros Hc Hms'. unfold response_text.
  rewrite reverse_app, reverse_cons, <- (assoc_L (++)). simpl.
  assert (∀ l rest, (∀ c', AIMessage c' ∈ l → c' = "") →
            scan_reply (l ++ rest) = scan_reply rest) as Hskip.
  { induction l as [|m l IH]; intros rest Hl; simpl; [done|].
    rewrite IH by (intros c' Hc'; apply Hl; by right).
    destruct m as [c'|c'|c'|c']; try done.
    rewrite (Hl c') by left. done. }
  rewrite Hskip.
  - simpl. destruct (String.eqb_spec c ""); done.
  - intros c' Hc'. apply Hms'. by apply elem_of_reverse.
Qed.

(** ** Runs that reach the executor *)

Section Runs.

Variable uuid4 : nat → string.

(** C3: when a submission has reached the executor call and that call
    raises, [handle_task_send] still returns the task; the task is stored
    under its key in state FAILED and its status carries the agent message
    "Error: " followed by the description of the failure. *)
Theorem executor_failure_is_captured agent_graph params w p w1 e :
  send_begin uuid4 params w = (Ok p, w1) →
  agent_graph (run_conversation p) = Raised e →
  ∃ t w',
    handle_task_send uuid4 agent_graph params w = (Ok t, w') ∧
    tasks w' !! run_id p = Some t ∧
    state (status t) = FAILED ∧
    message (status t) = Some (text_message "agent" ("Error: " +:+ e)).
Proof.
  intros Hb He. rewrite handle_task_send_begin, Hb, He. simpl.
  eexists _, _. split; [reflexivity|]. simpl.
  by rewrite lookup_insert_eq.
Qed.

(** C10: when the executor returns and none of its messages is an AI
    message with content, the task is COMPLETED all the same; the agent
    message appended to the history and the "response" artifact appended to
    the artifacts both carry the empty string. *)
Theorem empty_reply_still_completes agent_graph params w p w1 ms :
  send_begin uuid4 params w = (Ok p, w1) →
  agent_graph (run_conversation p) = Returned ms →
  (∀ c, AIMessage c ∈ ms → c = "") →
  ∃ t w',
    handle_task_send uuid4 agent_graph params w = (Ok t, w') ∧
    tasks w' !! run_id p = Some t ∧
    state (status t) = COMPLETED ∧
    message (status t) = Some (text_message "agent" "") ∧
    history t = history (run_task p) ++ [text_message "agent" ""] ∧
    artifacts t = artifacts (run_task p) ++ [response_artifact ""] ∧
    art_name (response_artifact "") = Some "response" ∧
    art_parts (response_artifact "") = [text_part ""].
Proof.
  intros Hb Hr Hsilent. rewrite handle_task_send_begin, Hb, Hr. simpl.
  rewrite (response_text_empty ms Hsilent).
  eexists _, _. split; [reflexivity|]. simpl.
  by rewrite lookup_insert_eq.
Qed.

(** C1, amended: when a submission has reached the executor call and the
    call returns, [handle_task_send] returns the task in state COMPLETED;
    the last message of its history is an agent message with the reply as
    text; the run appends exactly one artifact, named "response", with
    index 0, lastChunk true and the reply as its single text part, after
    the artifacts the task already had, so that a task created by this
    submission has exactly that one artifact. *)
Theorem successful_run_completes agent_graph params w p w1 ms :
  send_begin uuid4 params w = (Ok p, w1) →
  agent_graph (run_conversation p) = Returned ms →
  ∃ t w' reply a,
    handle_task_send uuid4 agent_graph params w = (Ok t, w') ∧
    tasks w' !! run_id p = Some t ∧
    state (status t) = COMPLETED ∧
    reply = response_text ms ∧
    last (history t) = Some (text_message "agent" reply) ∧
    art_name a = Some "response" ∧ art_index a = 0%Z ∧
    art_lastChunk a = true ∧ art_parts a = [text_part reply] ∧
    (∀ t0, tasks w !! run_id p = Some t0 → artifacts t = artifacts t0 ++ [a]) ∧
    (tasks w !! run_id p = None → artifacts t = [a]).
Proof.
  intros Hb Hr. rewrite handle_task_send_begin, Hb, Hr. simpl.
  destruct (send_begin_inv _ _ _ _ _ Hb) as (s & sid & _ & _ & Hp & _ & _).
  eexists _, _, (response_text ms), (response_artifact (response_text ms)).
  split; [reflexivity|]. simpl. rewrite lookup_insert_eq, last_snoc.
  split_and!; try done; rewrite Hp.
  - by intros t0 ->.
  - by intros ->.
Qed.

(** C7: a submission rejected with NoContentFound was rejected by the
    extraction of the text, and the store it leaves holds exactly the tasks
    it held before. *)
Theorem no_content_leaves_store agent_graph params w :
  fst (handle_task_send uuid4 agent_graph params w) = Err NoContentFound →
  extract_user_text params = Err NoContentFound ∧
  tasks (snd (handle_task_send uuid4 agent_graph params w)) = tasks w.
Proof.
  rewrite handle_task_send_begin.
  destruct (send_begin uuid4 params w) as [[p|e] w1] eqn:Hb; simpl; [done|].
  intros [= ->].
  destruct (send_begin_Err _ _ _ _ _ Hb) as [Hw|(k & sid & _ & _ & _ & ?)];
    [|done].
  split; [|done]. clear Hw. revert Hb. unfold send_begin.
  destruct (or_uuid uuid4 (requested_id params) (drawn w)) as [task_id n1].
  destruct (or_uuid uuid4 (requested_session params) n1) as [session_id n2].
  destruct (extract_user_text params) as [user_text|e]; [|by intros [= -> _]].
  unfold get_or_create.
  destruct (hashable task_id); simpl; [|done].
  destruct task_id as [| | |k| |]; try done. simpl.
  destruct (tasks w !! k) as [t|].
  - destruct user_text; simpl; done.
  - destruct session_id; simpl; try done. destruct user_text; simpl; done.
Qed.

(** Conversely, a payload without text is rejected with NoContentFound. *)
Lemma no_content_is_rejected agent_graph params w e :
  extract_user_text params = Err e →
  fst (handle_task_send uuid4 agent_graph params w) = Err e.
Proof.
  intros Hx. rewrite handle_task_send_begin. unfold send_begin. rewrite Hx.
  destruct (or_uuid uuid4 (requested_id params) (drawn w)) as [task_id n1].
  by destruct (or_uuid uuid4 (requested_session params) n1).
Qed.

End Runs.

Lemma executor_failure_is_captured_witness :
  send_begin sample_uuid4 (text_request_for "t1" "hi") empty_world
    = (Ok sample_run, sample_world) ∧
  failing "boom" (run_conversation sample_run) = Raised "boom" ∧
  ∃ t w',
    handle_task_send sample_uuid4 (failing "boom")
      (text_request_for "t1" "hi") empty_world = (Ok t, w') ∧
    tasks w' !! run_id sample_run = Some t ∧
    state (status t) = FAILED ∧
    message (status t) = Some (text_message "agent" ("Error: " +:+ "boom")).
Proof.
  split; [reflexivity|]. split; [reflexivity|].
  apply (executor_failure_is_captured sample_uuid4 (failing "boom")
           (text_request_for "t1" "hi") empty_world sample_run sample_world
           "boom"); reflexivity.
Defined.

Lemma empty_reply_still_completes_witness :
  send_begin sample_uuid4 (text_request_for "t1" "hi") empty_world
    = (Ok sample_run, sample_world) ∧
  silent (run_conversation sample_run)
    = Returned [HumanMessage "hi"; AIMessage ""] ∧
  ∃ t w',
    handle_task_send sample_uuid4 silent
      (text_request_for "t1" "hi") empty_world = (Ok t, w') ∧
    tasks w' !! run_id sample_run = Some t ∧
    state (status t) = COMPLETED ∧
    message (status t) = Some (text_message "agent" "") ∧
    history t = history (run_task sample_run) ++ [text_message "agent" ""] ∧
    artifacts t = artifacts (run_task sample_run) ++ [response_artifact ""] ∧
    art_name (response_artifact "") = Some "response" ∧
    art_parts (response_artifact "") = [text_part ""].
Proof.
  split; [reflexivity|]. split; [reflexivity|].
  apply (empty_reply_still_completes sample_uuid4 silent
           (text_request_for "t1" "hi") empty_world sample_run sample_world
           [HumanMessage "hi"; AIMessage ""]); [reflexivity..|].
  intros c Hc. apply elem_of_cons in Hc as [Hc|Hc]; [discriminate|].
  apply elem_of_cons in Hc as [Hc|Hc]; [by injection Hc|].
  by apply elem_of_nil in Hc.
Defined.

Lemma successful_run_completes_witness :
  send_begin sample_uuid4 (text_request_for "t1" "hi") empty_world
    = (Ok sample_run, sample_world) ∧
  replying "100" (run_conversation sample_run)
    = Returned [HumanMessage "hi"; AIMessage "100"] ∧
  ∃ t w' reply a,
    handle_task_send sample_uuid4 (replying "100")
      (text_request_for "t1" "hi") empty_world = (Ok t, w') ∧
    tasks w' !! run_id sample_run = Some t ∧
    state (status t) = COMPLETED ∧
    reply = response_text [HumanMessage "hi"; AIMessage "100"] ∧
    last (history t) = Some (text_message "agent" reply) ∧
    art_name a = Some "response" ∧ art_index a = 0%Z ∧
    art_lastChunk a = true ∧ art_parts a = [text_part reply] ∧
    (∀ t0, tasks empty_world !! run_id sample_run = Some t0 →
           artifacts t = artifacts t0 ++ [a]) ∧
    (tasks empty_world !! run_id sample_run = None → artifacts t = [a]).
Proof.
  split; [reflexivity|]. split; [reflexivity|].
  apply (successful_run_completes sample_uuid4 (replying "100")
           (text_request_for "t1" "hi") empty_world sample_run sample_world
           [HumanMessage "hi"; AIMessage "100"]); reflexivity.
Defined.

Lemma no_content_leaves_store_witness :
  fst (handle_task_send sample_uuid4 (replying "100")
         [("id", JStr "t9"); ("text", JStr "")] sample_world)
    = Err NoContentFound ∧
  extract_user_text [("id", JStr "t9"); ("text", JStr "")]
    = Err NoContentFound ∧
  tasks (snd (handle_task_send sample_uuid4 (replying "100")
                [("id", JStr "t9"); ("text", JStr "")] sample_world))
    = tasks sample_world.
Proof.
  split; [reflexivity|].
  apply (no_content_leaves_store sample_uuid4 (replying "100")
           [("id", JStr "t9"); ("text", JStr "")] sample_world).
  reflexivity.
Defined.

(** C1 as stated fails on a task that is submitted to again: after the
    second successful run the task holds two artifacts. *)
Lemma resubmitted_task_has_two_artifacts :
  let w := snd (handle_task_send sample_uuid4 (replying "100")
                  (text_request_for "t1" "hi") empty_world) in
  extract_user_text (text_request_for "t1" "again") = Ok (JStr "again") ∧
  ∃ t w',
    handle_task_send sample_uuid4 (replying "4")
      (text_request_for "t1" "again") w = (Ok t, w') ∧
    state (status t) = COMPLETED ∧
    artifacts t = [response_artifact "100"; response_artifact "4"] ∧
    ¬ ∃ a, artifacts t = [a].
Proof.
  split; [reflexivity|]. eexists _, _. split; [reflexivity|].
  split; [reflexivity|]. split; [reflexivity|].
  intros [a Ha]. discriminate Ha.
Qed.

(** ** Query and cancel *)

Lemma find_task_absent params w :
  hashable (requested_id params) = true →
  (∀ k, requested_id params = JStr k → tasks w !! k = None) →
  find_task params w = Err TaskNotFound.
Proof.
  intros Hh Habs. unfold find_task. rewrite Hh. simpl.
  destruct (truthy (requested_id params)); simpl; [|done].
  destruct (requested_id params) as [| | |k| |]; try done.
  by rewrite (Habs k).
Qed.

(** C5: on a store the server can be in, a query whose id is not a key of
    the store fails with TaskNotFound and so does a cancel, both leaving
    the world as it was; a cancel whose id is a key of the store returns
    the task with state CANCELED whatever its status was, and stores it. *)
Theorem query_and_cancel uuid4 w :
  (∀ n, uuid4 n ≠ "") →
  reachable uuid4 w →
  (∀ params,
     hashable (requested_id params) = true →
     (∀ k, requested_id params = JStr k → tasks w !! k = None) →
     handle_task_get params w = (Err TaskNotFound, w) ∧
     handle_task_cancel params w = (Err TaskNotFound, w)) ∧
  (∀ params k t,
     requested_id params = JStr k → tasks w !! k = Some t →
     ∃ t' w',
       handle_task_cancel params w = (Ok t', w') ∧
       tasks w' = <[k := t']> (tasks w) ∧
       state (status t') = CANCELED ∧
       id t' = id t ∧ history t' = history t ∧ artifacts t' = artifacts t).
Proof.
  intros Hne Hreach. split.
  - intros params Hh Habs. unfold handle_task_get, handle_task_cancel.
    by rewrite (find_task_absent params w Hh Habs).
  - intros params k t Hid Hk.
    assert (k ≠ "") as Hk0.
    { intros ->. by rewrite (reachable_empty_key uuid4 Hne w Hreach) in Hk. }
    unfold handle_task_cancel, find_task. rewrite Hid. simpl.
    apply truthy_str in Hk0. simpl in Hk0. rewrite Hk0, Hk. simpl.
    eexists _, _. split; [reflexivity|]. done.
Qed.

Lemma completed_world_reachable : reachable sample_uuid4 completed_world.
Proof. apply reachable_step, reachable_init. Qed.

Lemma query_and_cancel_witness :
  (∃ t, tasks completed_world !! "t1" = Some t ∧ state (status t) = COMPLETED) ∧
  handle_task_get [("id", JStr "t2")] completed_world
    = (Err TaskNotFound, completed_world) ∧
  handle_task_cancel [("id", JStr "t2")] completed_world
    = (Err TaskNotFound, completed_world) ∧
  ∃ t' w',
    handle_task_cancel [("id", JStr "t1")] completed_world = (Ok t', w') ∧
    state (status t') = CANCELED.
Proof.
  destruct (query_and_cancel sample_uuid4 completed_world
              sample_uuid4_nonempty completed_world_reachable)
    as [Habsent Hknown].
  split; [eexists; split; reflexivity|].
  destruct (Habsent [("id", JStr "t2")]) as [Hget Hcancel];
    [reflexivity|by intros k [= <-]|].
  split; [exact Hget|]. split; [exact Hcancel|].
  destruct (Hknown [("id", JStr "t1")] "t1"
              (send_end (replying "100" [HumanMessage "hi"])
                 (run_task sample_run)))
    as (t' & w' & H & _ & Hstate & _); [reflexivity..|].
  exists t', w'. by split.
Defined.

(** ** History and artifacts *)

(** C4 as stated fails on a run that ends FAILED: the history gains the
    user message and no agent message. *)
Lemma failed_run_appends_no_agent_message :
  ∃ t w',
    handle_task_send sample_uuid4 (failing "boom")
      (text_request_for "t1" "hi") empty_world = (Ok t, w') ∧
    state (status t) = FAILED ∧
    history t = [text_message "user" "hi"] ∧
    ¬ ∃ m, m ∈ history t ∧ role m = "agent".
Proof.
  eexists _, _. split; [reflexivity|]. split; [reflexivity|].
  split; [reflexivity|]. simpl. intros (m & Hm & Hrole).
  apply list_elem_of_singleton in Hm as ->. discriminate Hrole.
Qed.

(** C4, amended: a submission that returns a task has appended exactly one
    user message to the history the task had; a run that ends COMPLETED
    has appended exactly one agent message after it and one artifact; a
    run that ends FAILED has appended no agent message and no artifact;
    a run ends in one of these two states; a rejected submission changes
    no stored task; and every request, and every sequence of requests,
    keeps each stored task's history and artifacts as a prefix of what
    they become. *)
Theorem history_is_append_only uuid4 :
  (∀ agent_graph params w t w',
     handle_task_send uuid4 agent_graph params w = (Ok t, w') →
     ∃ k s,
       tasks w' !! k = Some t ∧
       extract_user_text params = Ok (JStr s) ∧
       let h0 := default [] (history <$> tasks w !! k) in
       let a0 := default [] (artifacts <$> tasks w !! k) in
       (state (status t) = COMPLETED ∧
        ∃ reply,
          history t = h0 ++ [text_message "user" s; text_message "agent" reply] ∧
          artifacts t = a0 ++ [response_artifact reply])
       ∨
       (state (status t) = FAILED ∧
        history t = h0 ++ [text_message "user" s] ∧
        artifacts t = a0)) ∧
  (∀ agent_graph params w e w',
     handle_task_send uuid4 agent_graph params w = (Err e, w') →
     ∀ k t, tasks w !! k = Some t → tasks w' !! k = Some t) ∧
  (∀ r w, extends w (snd (handle uuid4 r w))) ∧
  (∀ rs w, extends w (run uuid4 rs w)).
Proof.
  split_and!.
  - intros ag params w t w' H.
    destruct (handle_task_send_Ok _ _ _ _ _ _ H) as (p & w1 & Hb & Ht & Hw').
    destruct (send_begin_inv _ _ _ _ _ Hb) as (s & sid & Hx & _ & Hp & _ & _).
    exists (run_id p), s. split; [rewrite Hw'; apply lookup_insert_eq|].
    split; [done|]. simpl.
    assert (history (run_task p) =
              default [] (history <$> tasks w !! run_id p)
              ++ [text_message "user" s] ∧
            artifacts (run_task p) =
              default [] (artifacts <$> tasks w !! run_id p)) as [Hh Ha].
    { rewrite Hp. by destruct (tasks w !! run_id p). }
    rewrite Ht. destruct (ag (run_conversation p)) as [ms|e]; simpl.
    + left. split; [done|]. exists (response_text ms).
      rewrite Hh, Ha, <- (assoc_L (++)). done.
    + right. by rewrite Hh, Ha.
  - intros ag params w e w' H k t Hk.
    rewrite handle_task_send_begin in H.
    destruct (send_begin uuid4 params w) as [[p|e'] w1] eqn:Hb; [discriminate|].
    injection H as <- <-.
    destruct (send_begin_Err _ _ _ _ _ Hb) as [Hw|(k' & sid & _ & Hk' & Hw & _)];
      rewrite Hw; [done|].
    rewrite lookup_insert_ne; [done|]. intros ->. congruence.
  - apply extends_handle.
  - apply extends_run.
Qed.

Lemma history_is_append_only_witness :
  (∃ t w',
     handle_task_send sample_uuid4 (replying "4")
       (text_request_for "t1" "again") completed_world = (Ok t, w') ∧
     state (status t) = COMPLETED ∧
     history t =
       [text_message "user" "hi"; text_message "agent" "100";
        text_message "user" "again"; text_message "agent" "4"]) ∧
  (∀ k t, tasks completed_world !! k = Some t →
     tasks (snd (handle_task_send sample_uuid4 (replying "4")
                   [("id", JStr "t1"); ("text", JNum 42)] completed_world))
       !! k = Some t) ∧
  extends completed_world
    (run sample_uuid4
       [Cancel [("id", JStr "t1")];
        Send (failing "boom") (text_request_for "t1" "again")]
       completed_world).
Proof.
  destruct (history_is_append_only sample_uuid4)
    as (Hsend & Hrejected & _ & Hrun).
  split_and!.
  - eexists _, _. split; [reflexivity|].
    edestruct (Hsend (replying "4") (text_request_for "t1" "again")
                 completed_world) as (k & s & _ & _ & _); [reflexivity|].
    split; reflexivity.
  - intros k t Hk.
    apply (Hrejected (replying "4") [("id", JStr "t1"); ("text", JNum 42)]
             completed_world ValidationError _ eq_refl k t Hk).
  - apply Hrun.
Defined.

(** ** The conversation handed to the executor *)

Lemma langchain_messages_single_text h :
  Forall single_text h → langchain_messages h = omap projected_turn h.
Proof.
  induction 1 as [|m h [s Hm] _ IH]; [done|].
  unfold langchain_messages in *. simpl. rewrite IH.
  unfold projected_turn, first_text, part_turn. rewrite Hm. simpl.
  unfold role_turn. by destruct (String.eqb s "").
Qed.

(** C9 as stated fails once a history holds an agent message with empty
    text: three messages give two turns. *)
Lemma empty_agent_message_gives_no_turn :
  ∃ p w1,
    send_begin sample_uuid4 (text_request_for "t1" "again") silent_world
      = (Ok p, w1) ∧
    history (run_task p) =
      [text_message "user" "hi"; text_message "agent" "";
       text_message "user" "again"] ∧
    run_conversation p = [HumanMessage "hi"; HumanMessage "again"] ∧
    every_message_a_turn (history (run_task p)) =
      [HumanMessage "hi"; AIMessage ""; HumanMessage "again"] ∧
    run_conversation p ≠ every_message_a_turn (history (run_task p)).
Proof.
  eexists _, _. split; [reflexivity|]. split; [reflexivity|].
  split; [reflexivity|]. split; [reflexivity|]. discriminate.
Qed.

(** C9, amended: in a store the server can be in, the conversation handed
    to the executor is the history of the task, including the user message
    this submission has just appended, projected in order and without
    truncation: each message whose first text part has non-empty text gives
    one turn, a user turn for a user message and an agent turn for any
    other, and a message whose text is empty gives none. *)
Theorem conversation_is_projected_history uuid4 params w p w1 :
  reachable uuid4 w →
  send_begin uuid4 params w = (Ok p, w1) →
  ∃ s,
    extract_user_text params = Ok (JStr s) ∧
    history (run_task p) =
      default [] (history <$> tasks w !! run_id p) ++ [text_message "user" s] ∧
    run_conversation p = omap projected_turn (history (run_task p)) ∧
    projected_turn (text_message "user" s) = Some (HumanMessage s).
Proof.
  intros Hreach Hb.
  pose proof (reachable_store_inv uuid4 w Hreach) as Hinv.
  destruct (send_begin_inv _ _ _ _ _ Hb) as (s & sid & Hx & _ & Hp & Hc & _).
  exists s. split; [done|].
  assert (history (run_task p) =
            default [] (history <$> tasks w !! run_id p)
            ++ [text_message "user" s]) as Hh.
  { rewrite Hp. by destruct (tasks w !! run_id p). }
  split; [done|]. split.
  - rewrite Hc. apply langchain_messages_single_text. rewrite Hh.
    apply Forall_app. split.
    + destruct (tasks w !! run_id p) as [t0|] eqn:Ht0; simpl; [|done].
      by eapply inv_parts.
    + repeat constructor. apply single_text_message.
  - apply extract_user_text_nonempty in Hx.
    unfold projected_turn, first_text. simpl.
    by destruct (String.eqb_spec s "").
Qed.

Lemma silent_world_reachable : reachable sample_uuid4 silent_world.
Proof. apply reachable_step, reachable_init. Qed.

Lemma conversation_is_projected_history_witness :
  ∃ p w1,
    send_begin sample_uuid4 (text_request_for "t1" "again") silent_world
      = (Ok p, w1) ∧
    ∃ s,
      extract_user_text (text_request_for "t1" "again") = Ok (JStr s) ∧
      history (run_task p) =
        default [] (history <$> tasks silent_world !! run_id p)
        ++ [text_message "user" s] ∧
      run_conversation p = omap projected_turn (history (run_task p)) ∧
      projected_turn (text_message "user" s) = Some (HumanMessage s).
Proof.
  eexists _, _. split; [reflexivity|].
  apply (conversation_is_projected_history sample_uuid4
           (text_request_for "t1" "again") silent_world _ _
           silent_world_reachable eq_refl).
Defined.

(** ** The extraction rules *)

Lemma str_or_falsy_truthy v :
  str_or_falsy v = true →
  truthy v = negb (String.eqb (text_of v) "") ∧
  (truthy v = true → v = JStr (text_of v)).
Proof.
  unfold str_or_falsy. intros H.
  destruct v as [|b|z|s|l|d]; simpl in *; [done| | |done| |];
    rewrite orb_false_r in H; apply negb_true_iff in H;
    rewrite H; done.
Qed.

Lemma orelse_empty_r a : orelse a "" = a.
Proof. unfold orelse. by destruct (String.eqb_spec a ""). Qed.

Lemma orelse_assoc a b c : orelse (orelse a b) c = orelse a (orelse b c).
Proof.
  unfold orelse. destruct (String.eqb a "") eqn:Ea; [done|]. by rewrite Ea.
Qed.

Lemma first_nonempty_cons a l :
  first_nonempty (a :: l) = orelse a (first_nonempty l).
Proof. reflexivity. Qed.

Lemma py_or_text a b :
  str_or_falsy a = true → str_or_falsy b = true →
  str_or_falsy (py_or a b) = true ∧
  text_of (py_or a b) = orelse (text_of a) (text_of b).
Proof.
  intros Ha Hb. destruct (str_or_falsy_truthy a Ha) as [Ta Sa].
  unfold py_or, orelse. rewrite Ta.
  by destruct (String.eqb (text_of a) "").
Qed.

(** [if not a: a = b] is [a or b]. *)
Lemma unless_py_or a b : (if negb (truthy a) then b else a) = py_or a b.
Proof. unfold py_or. by destruct (truthy a). Qed.

Lemma scan_parts_rule ps :
  forallb part_shaped ps = true →
  str_or_falsy (scan_parts ps) = true ∧
  text_of (scan_parts ps) =
    match List.find is_text_part ps with
    | Some part => part_text_of part
    | None => ""
    end.
Proof.
  induction ps as [|part ps IH]; simpl; [done|].
  intros [Hpart Hps]%andb_true_iff. specialize (IH Hps).
  destruct part as [| | |s|l|p]; simpl; try done.
  - unfold str_or_falsy. simpl. split; [|done]. apply orb_true_r.
  - simpl in Hpart.
    destruct (match dict_get p "type" JNull with
              | JStr t => String.eqb t "text"
              | _ => false
              end || dict_mem p "text"); done.
Qed.

Arguments first_nonempty : simpl never.

Lemma from_message_rules params :
  message_shaped (dict_get params "message" (JDict [])) = true →
  ∃ u,
    from_message params = Ok u ∧ str_or_falsy u = true ∧
    text_of u = orelse (rule_parts params) (rule_message params).
Proof.
  unfold from_message, rule_parts, rule_message, message_object, dict_get.
  destruct (dict_lookup params "message") as [v|] eqn:Hm; simpl;
    [|intros _; by exists (JStr "")].
  destruct (truthy v) eqn:Hv.
  - intros Hshape.
    destruct v as [| | |?|?|md];
      try (unfold message_shaped in Hshape; rewrite Hv in Hshape; discriminate).
    simpl in Hshape. simpl.
    apply andb_true_iff in Hshape as [[Hparts Htext]%andb_true_iff Hcontent].
    destruct (py_or_text _ _ Htext Hcontent) as [Hor Hortext].
    unfold dict_get in *.
    assert (∃ ps, iterate (match dict_lookup md "parts" with
                           | Some v => v
                           | None => JList []
                           end) = Ok ps ∧
                  forallb part_shaped ps = true ∧
                  match dict_lookup md "parts" with
                  | Some (JList ps) =>
                      match List.find is_text_part ps with
                      | Some part => part_text_of part
                      | None => ""
                      end
                  | _ => ""
                  end = match List.find is_text_part ps with
                        | Some part => part_text_of part
                        | None => ""
                        end) as (ps & -> & Hps & ->).
    { destruct (dict_lookup md "parts") as [[| | | |ps|]|]; try discriminate.
      - by exists ps.
      - by exists []. }
    simpl. destruct (scan_parts_rule ps Hps) as [Hscan <-].
    destruct (str_or_falsy_truthy _ Hscan) as [Ts Ss]. rewrite Ts.
    destruct (String.eqb_spec (text_of (scan_parts ps)) "") as [E|E]; simpl.
    + eexists. split; [done|]. split; [done|].
      rewrite Hortext, E, !first_nonempty_cons, orelse_empty_r. done.
    + eexists. split; [done|]. split; [done|].
      unfold orelse at 1. by destruct (String.eqb_spec (text_of (scan_parts ps)) "").
  - intros _. exists (JStr ""). split; [done|]. split; [done|].
    destruct v as [| | |?|?|md]; simpl; try done.
    by destruct md.
Qed.

(** C2 as stated fails on a payload whose [parts] is null: the loop over
    the parts raises TypeError, where the rules give the top-level text. *)
Lemma null_parts_raise_type_error :
  let params :=
    [("message", JDict [("role", JStr "user"); ("parts", JNull)]);
     ("text", JStr "hi")] in
  extract_user_text params = Err TypeError ∧
  extraction_by_rules params = Ok (JStr "hi") ∧
  fst (handle_task_send sample_uuid4 (replying "100") params empty_world)
    = Err TypeError ∧
  extract_user_text [("message", JDict [("parts", JNull)])] = Err TypeError ∧
  extraction_by_rules [("message", JDict [("parts", JNull)])]
    = Err NoContentFound.
Proof. repeat split. Qed.

(** C2, amended: on a payload whose [message] is absent, empty or an
    object with [parts] absent or a list, and whose fields read by the
    rules hold strings or are absent or empty, the extraction is the first
    non-empty result of, in this order, (1) the text of the first part
    that declares type "text", carries a text field or is a plain string,
    (2) the message object's text or content, (3) a top-level text,
    content or query, (4) a top-level prompt, (5) a top-level input; when
    no rule gives non-empty text the extraction, and with it the
    submission, fails with NoContentFound; a submission that goes on
    appends the extracted text as its user message. *)
Theorem extraction_follows_rules params :
  well_shaped params = true →
  extract_user_text params = extraction_by_rules params ∧
  (extraction_by_rules params = Err NoContentFound →
   ∀ uuid4 agent_graph w,
     fst (handle_task_send uuid4 agent_graph params w) = Err NoContentFound) ∧
  (∀ uuid4 w p w1,
     send_begin uuid4 params w = (Ok p, w1) →
     ∃ s, extraction_by_rules params = Ok (JStr s) ∧ s ≠ "" ∧
          last (history (run_task p)) = Some (text_message "user" s)).
Proof.
  intros H. unfold well_shaped in H. simpl in H.
  repeat match goal with
         | H : _ && _ = true |- _ => apply andb_true_iff in H as [? ?]
         end.
  assert (extract_user_text params = extraction_by_rules params) as Heq.
  { destruct (from_message_rules params) as (u & Hu & Su & Tu); [done|].
    unfold extract_user_text, extraction_by_rules. rewrite Hu. simpl.
    rewrite !unless_py_or. unfold top_level_text.
    set (t := dict_get params "text" (JStr "")) in *.
    set (c := dict_get params "content" (JStr "")) in *.
    set (q := dict_get params "query" (JStr "")) in *.
    set (pr := dict_get params "prompt" (JStr "")) in *.
    set (i := dict_get params "input" (JStr "")) in *.
    destruct (py_or_text c q) as [Scq Tcq]; [done..|].
    destruct (py_or_text t (py_or c q)) as [Stop Ttop]; [done..|].
    destruct (py_or_text u _ Su Stop) as [S1 T1].
    destruct (py_or_text _ pr S1) as [S2 T2]; [done|].
    destruct (py_or_text _ i S2) as [S3 T3]; [done|].
    set (F := py_or (py_or (py_or u (py_or t (py_or c q))) pr) i) in *.
    assert (first_nonempty
              [rule_parts params; rule_message params; rule_top_level params;
               rule_prompt params; rule_input params] = text_of F) as ->.
    { rewrite T3, T2, T1, Ttop, Tcq, Tu.
      unfold rule_top_level, rule_prompt, rule_input.
      fold t c q pr i. rewrite !first_nonempty_cons.
      change (first_nonempty []) with "".
      rewrite !orelse_empty_r, !orelse_assoc. done. }
    destruct (str_or_falsy_truthy F S3) as [TF SF]. rewrite TF.
    destruct (String.eqb (text_of F) ""); simpl; [done|].
    f_equal. apply SF. by rewrite TF. }
  split; [done|]. split.
  - intros Hnone uuid4 ag w.
    apply no_content_is_rejected. by rewrite Heq.
  - intros uuid4 w p w1 Hb.
    destruct (send_begin_inv _ _ _ _ _ Hb) as (s & sid & Hx & _ & Hp & _ & _).
    exists s. split; [by rewrite <- Heq|].
    split; [by eapply extract_user_text_nonempty|].
    rewrite Hp. simpl. apply last_snoc.
Qed.

Lemma extraction_follows_rules_witness :
  well_shaped (text_request "hi") = true ∧
  extract_user_text (text_request "hi") = extraction_by_rules (text_request "hi") ∧
  extraction_by_rules (text_request "hi") = Ok (JStr "hi") ∧
  well_shaped [("prompt", JStr ""); ("input", JStr "last")] = true ∧
  extract_user_text [("prompt", JStr ""); ("input", JStr "last")]
    = Ok (JStr "last").
Proof.
  split; [reflexivity|].
  destruct (extraction_follows_rules (text_request "hi")) as (H & _ & _);
    [reflexivity|].
  split; [exact H|]. split; [reflexivity|]. split; [reflexivity|].
  destruct (extraction_follows_rules [("prompt", JStr ""); ("input", JStr "last")])
    as (H' & _ & _); [reflexivity|].
  rewrite H'. reflexivity.
Defined.

(** ** Authentication *)

Lemma remove_from_absent old s :
  occurs old s = false → remove_from old 0 s = s.
Proof.
  induction s as [|c r IH]; [done|].
  intros [Hp Hr]%orb_false_iff. cbn [remove_from]. rewrite Hp.
  by rewrite IH.
Qed.

Lemma remove_all_bearer_prefix s :
  remove_all "Bearer " ("Bearer " +:+ s) = remove_all "Bearer " s.
Proof. unfold remove_all, String.append. by destruct s. Qed.

(** C8: the check accepts a header that is not the secret, with or without
    the "Bearer " prefix: [replace] removes "Bearer " also from the middle of
    the value, where the comment of line 49 announces the two forms
    "Bearer <token>" and "<token>". *)
Lemma bearer_inside_token_is_accepted :
  let secret := "demo-api-key-12345" in
  let header := "demo-Bearer api-key-12345" in
  verify_api_key secret (Some header) = Ok true ∧
  without_bearer_prefix header = header ∧
  without_bearer_prefix header ≠ secret.
Proof. repeat split. discriminate. Qed.

(** What the check computes, case by case: without a configured secret
    every request passes; with one, a request passes exactly when the
    header is present and not empty and the token computed from it equals
    the secret; a missing header and a mismatched value are rejected with
    the same status 401 and different details; for a secret free of
    "Bearer " and of surrounding whitespace, the secret itself and the
    secret after "Bearer " both pass. *)
Theorem verify_api_key_decides API_KEY authorization :
  (API_KEY = "" → verify_api_key API_KEY authorization = Ok true) ∧
  (API_KEY ≠ "" →
   (verify_api_key API_KEY authorization = Ok true ↔
    ∃ h, authorization = Some h ∧ h ≠ "" ∧
         strip (remove_all "Bearer " h) = API_KEY) ∧
   ((authorization = None ∨ authorization = Some "") →
    verify_api_key API_KEY authorization
      = Err (HTTPException 401 "Missing Authorization header")) ∧
   (∀ h, authorization = Some h → h ≠ "" →
         strip (remove_all "Bearer " h) ≠ API_KEY →
         verify_api_key API_KEY authorization
           = Err (HTTPException 401 "Invalid API key")) ∧
   (occurs "Bearer " API_KEY = false → strip API_KEY = API_KEY →
    verify_api_key API_KEY (Some API_KEY) = Ok true ∧
    verify_api_key API_KEY (Some ("Bearer " +:+ API_KEY)) = Ok true)).
Proof.
  unfold verify_api_key. split.
  - by intros ->.
  - intros Hkey. destruct (String.eqb_spec API_KEY "") as [|_]; [done|].
    split_and!.
    + split.
      * destruct authorization as [h|]; [|done].
        destruct (String.eqb_spec h ""); [done|].
        destruct (String.eqb_spec (strip (remove_all "Bearer " h)) API_KEY);
          [|done].
        intros _. by exists h.
      * intros (h & -> & Hh & Htoken).
        destruct (String.eqb_spec h ""); [done|].
        by destruct (String.eqb_spec (strip (remove_all "Bearer " h)) API_KEY).
    + by intros [->| ->].
    + intros h -> Hh Htoken. destruct (String.eqb_spec h ""); [done|].
      by destruct (String.eqb_spec (strip (remove_all "Bearer " h)) API_KEY).
    + intros Hfree Htrim.
      assert (strip (remove_all "Bearer " API_KEY) = API_KEY) as Htoken.
      { unfold remove_all. by rewrite remove_from_absent. }
      rewrite remove_all_bearer_prefix, Htoken.
      destruct (String.eqb_spec API_KEY ""); [done|].
      destruct (String.eqb_spec API_KEY API_KEY); [|done].
      done.
Qed.

Lemma verify_api_key_decides_witness :
  verify_api_key "" None = Ok true ∧
  verify_api_key "demo-api-key-12345" (Some "Bearer demo-api-key-12345")
    = Ok true ∧
  verify_api_key "demo-api-key-12345" (Some "demo-api-key-12345") = Ok true ∧
  verify_api_key "demo-api-key-12345" None
    = Err (HTTPException 401 "Missing Authorization header") ∧
  verify_api_key "demo-api-key-12345" (Some "Bearer wrong")
    = Err (HTTPException 401 "Invalid API key").
Proof.
  split.
  { apply (proj1 (verify_api_key_decides "" None) eq_refl). }
  destruct (verify_api_key_decides "demo-api-key-12345" None) as [_ H].
  destruct H as (_ & Hmissing & _ & Hclean); [done|].
  destruct Hclean as [Hbare Hbearer]; [reflexivity..|].
  split; [exact Hbearer|]. split; [exact Hbare|].
  split; [apply Hmissing; by left|].
  destruct (verify_api_key_decides "demo-api-key-12345" (Some "Bearer wrong"))
    as [_ H].
  destruct H as (_ & _ & Hwrong & _); [done|].
  apply (Hwrong "Bearer wrong"); [reflexivity|done|done].
Defined.

(** * Further properties of the handlers *)

(** ** Where the tasks of a store come from *)

(** After any request, a stored task is the one stored before, or a task
    just created, or a cancelled or a run version of the one stored (or
    just created) under the same key. *)
Lemma handle_tasks_cases uuid4 r w k t' :
  tasks (snd (handle uuid4 r w)) !! k = Some t' →
  tasks w !! k = Some t' ∨
  (∃ sid, tasks w !! k = None ∧ t' = new_task k sid) ∨
  (∃ t, tasks w !! k = Some t ∧ t' = cancel_task t) ∨
  (∃ t0 s out,
     (tasks w !! k = Some t0 ∨ tasks w !! k = None ∧ ∃ sid, t0 = new_task k sid) ∧
     t' = send_end out (open_run s t0)).
Proof.
  destruct r as [ag params|params|params]; simpl.
  - destruct (handle_task_send uuid4 ag params w) as [[t|e] w'] eqn:H; simpl.
    + destruct (handle_task_send_Ok _ _ _ _ _ _ H) as (p & w1 & Hb & Ht & Hw').
      destruct (send_begin_inv _ _ _ _ _ Hb) as (s & sid & _ & _ & Hp & _ & _).
      rewrite Hw'. destruct (decide (run_id p = k)) as [<-|Hne].
      * rewrite lookup_insert_eq. intros [= <-]. right. right. right.
        exists (default (new_task (run_id p) sid) (tasks w !! run_id p)), s,
          (ag (run_conversation p)).
        split; [|by rewrite Ht, Hp].
        destruct (tasks w !! run_id p); simpl; eauto.
      * rewrite lookup_insert_ne by done. by left.
    + rewrite handle_task_send_begin in H.
      destruct (send_begin uuid4 params w) as [[p|e'] w1] eqn:Hb; [discriminate|].
      injection H as <- <-.
      destruct (send_begin_Err _ _ _ _ _ Hb) as [Hw|(k0 & sid & _ & Hk0 & Hw & _)];
        rewrite Hw; [by left|].
      destruct (decide (k0 = k)) as [<-|Hne].
      * rewrite lookup_insert_eq. intros [= <-]. right. left. eauto.
      * rewrite lookup_insert_ne by done. by left.
  - unfold handle_task_get. destruct (find_task params w) as [[k0 t]|]; by left.
  - unfold handle_task_cancel.
    destruct (find_task params w) as [[k0 t]|] eqn:Hf; simpl; [|by left].
    apply find_task_Ok in Hf as (_ & _ & Ht).
    destruct (decide (k0 = k)) as [<-|Hne].
    + rewrite lookup_insert_eq. intros [= <-]. right. right. left. eauto.
    + rewrite lookup_insert_ne by done. by left.
Qed.

Lemma requested_id_singleton k : requested_id [("id", JStr k)] = JStr k.
Proof. reflexivity. Qed.

(** ** Query, cancel and resubmission *)

(** X1: a query never changes the world, and in a store the server can be
    in, querying the id of the task a submission has just returned gives
    back exactly that task. *)
Theorem query_returns_submitted_task uuid4 agent_graph params w t w' :
  (∀ n, uuid4 n ≠ "") →
  reachable uuid4 w →
  handle_task_send uuid4 agent_graph params w = (Ok t, w') →
  handle_task_get [("id", JStr (id t))] w' = (Ok t, w') ∧
  ∀ params', snd (handle_task_get params' w') = w'.
Proof.
  intros Hne Hreach H. split.
  - destruct (handle_task_send_Ok _ _ _ _ _ _ H) as (p & w1 & Hb & Ht & Hw').
    destruct (send_begin_inv _ _ _ _ _ Hb) as (s & sid & _ & Hk & _).
    apply (or_uuid_nonempty uuid4 Hne) in Hk.
    assert (reachable uuid4 w') as Hreach'.
    { replace w' with (snd (handle uuid4 (Send agent_graph params) w));
        [by constructor|]. simpl. by rewrite H. }
    assert (tasks w' !! run_id p = Some t) as Hstored.
    { rewrite Hw'. apply lookup_insert_eq. }
    rewrite (inv_key w' (reachable_store_inv uuid4 w' Hreach') _ _ Hstored).
    unfold handle_task_get, find_task. rewrite requested_id_singleton.
    apply truthy_str in Hk. rewrite Hk. simpl. by rewrite Hstored.
  - intros params'. unfold handle_task_get.
    by destruct (find_task params' w') as [[k0 t0]|].
Qed.

Lemma query_returns_submitted_task_witness :
  handle_task_get [("id", JStr "t1")] completed_world
  = (Ok (send_end (replying "100" [HumanMessage "hi"]) (run_task sample_run)),
     completed_world).
Proof.
  apply (query_returns_submitted_task sample_uuid4 (replying "100")
           (text_request_for "t1" "hi") empty_world
           (send_end (replying "100" [HumanMessage "hi"]) (run_task sample_run))
           completed_world sample_uuid4_nonempty (reachable_init _) eq_refl).
Defined.

(** X2: a second cancel with the same parameters changes nothing of what
    the first left, the time stamp of the status apart (which the model
    does not have): it fails with the same error, or returns a task with
    the same id, session, state, status message, history and artifacts, and
    every stored task keeps these. *)
Theorem second_cancel_keeps_content params w :
  let first := handle_task_cancel params w in
  let second := handle_task_cancel params (snd first) in
  match fst first, fst second with
  | Ok t1, Ok t2 => same_content t1 t2 ∧ state (status t2) = CANCELED
  | Err e1, Err e2 => e1 = e2
  | _, _ => False
  end ∧
  ∀ k, option_Forall2 same_content
         (tasks (snd first) !! k) (tasks (snd second) !! k).
Proof.
  assert (∀ o : option Task, option_Forall2 same_content o o) as Hrefl.
  { intros [t|]; constructor. by repeat split. }
  cbv zeta.
  destruct (find_task params w) as [[k t]|e] eqn:Hf.
  - pose proof Hf as (Hid & Hk & Ht)%find_task_Ok.
    set (w1 := with_tasks w (<[k := cancel_task t]> (tasks w))).
    assert (handle_task_cancel params w = (Ok (cancel_task t), w1)) as H1.
    { unfold handle_task_cancel. by rewrite Hf. }
    assert (handle_task_cancel params w1 = (Ok (cancel_task t), w1)) as H2.
    { unfold handle_task_cancel, find_task. rewrite Hid. simpl.
      apply truthy_str in Hk. simpl in Hk. rewrite Hk. simpl.
      rewrite lookup_insert_eq. unfold w1, with_tasks. simpl.
      by rewrite insert_insert_eq. }
    rewrite H1. simpl. rewrite H2. simpl. split; [by repeat split|].
    intros k'. apply Hrefl.
  - assert (handle_task_cancel params w = (Err e, w)) as H1.
    { unfold handle_task_cancel. by rewrite Hf. }
    rewrite H1. simpl. rewrite H1. simpl. split; [done|].
    intros k'. apply Hrefl.
Qed.

(** X3: a submission does not look at the status of the task it is
    addressed to: had the stored task any other status (CANCELED,
    COMPLETED, FAILED), the submission would return the same task and
    leave the same world.  So a cancelled task is reopened by the next
    submission. *)
Theorem submission_ignores_status uuid4 agent_graph params w k t st r w' :
  requested_id params = JStr k → k ≠ "" →
  tasks w !! k = Some t →
  handle_task_send uuid4 agent_graph params w = (Ok r, w') →
  handle_task_send uuid4 agent_graph params
    (with_tasks w (<[k := with_status st t]> (tasks w))) = (Ok r, w').
Proof.
  intros Hid Hk Ht. apply truthy_str in Hk.
  unfold handle_task_send, send_begin. rewrite Hid.
  unfold or_uuid at 1 3. rewrite Hk. simpl.
  destruct (or_uuid uuid4 (requested_session params) (drawn w))
    as [session_id n2].
  destruct (extract_user_text params) as [user_text|]; [|done].
  unfold get_or_create. simpl. rewrite Ht, lookup_insert_eq.
  destruct (as_str user_text) as [s|]; [|done]. simpl.
  intros [= <- <-]. unfold with_tasks. simpl.
  by rewrite !insert_insert_eq.
Qed.

Lemma submission_ignores_status_witness :
  ∃ r w',
    handle_task_send sample_uuid4 (replying "4")
      (text_request_for "t1" "again") completed_world = (Ok r, w') ∧
    handle_task_send sample_uuid4 (replying "4")
      (text_request_for "t1" "again")
      (snd (handle_task_cancel [("id", JStr "t1")] completed_world))
    = (Ok r, w') ∧
    state (status r) = COMPLETED.
Proof.
  eexists _, _. split; [reflexivity|]. split; [|reflexivity].
  apply (submission_ignores_status sample_uuid4 (replying "4")
           (text_request_for "t1" "again") completed_world "t1"
           (send_end (replying "100" [HumanMessage "hi"]) (run_task sample_run))
           {| state := CANCELED; message := None |});
    [reflexivity|done|reflexivity|reflexivity].
Defined.

(** X4: a request touches at most the task it names: a submission leaves
    every key other than its (given or generated) id as it was, a cancel
    every key other than its id, a query every key. *)
Theorem other_tasks_are_untouched uuid4 :
  (∀ agent_graph params w k',
     fst (or_uuid uuid4 (requested_id params) (drawn w)) ≠ JStr k' →
     tasks (snd (handle_task_send uuid4 agent_graph params w)) !! k'
     = tasks w !! k') ∧
  (∀ params w k',
     requested_id params ≠ JStr k' →
     tasks (snd (handle_task_cancel params w)) !! k' = tasks w !! k') ∧
  (∀ params w, tasks (snd (handle_task_get params w)) = tasks w).
Proof.
  split_and!.
  - intros ag params w k' Hk'.
    destruct (handle_task_send uuid4 ag params w) as [[t|e] w'] eqn:H; simpl.
    + destruct (handle_task_send_Ok _ _ _ _ _ _ H) as (p & w1 & Hb & _ & Hw').
      destruct (send_begin_inv _ _ _ _ _ Hb) as (s & sid & _ & Hk & _).
      rewrite Hw', lookup_insert_ne; [done|]. congruence.
    + rewrite handle_task_send_begin in H.
      destruct (send_begin uuid4 params w) as [[p|e'] w1] eqn:Hb; [discriminate|].
      injection H as <- <-.
      destruct (send_begin_Err _ _ _ _ _ Hb) as [Hw|(k0 & sid & Hk & _ & Hw & _)];
        rewrite Hw; [done|].
      rewrite lookup_insert_ne; [done|]. congruence.
  - intros params w k' Hk'. unfold handle_task_cancel.
    destruct (find_task params w) as [[k t]|] eqn:Hf; simpl; [|done].
    apply find_task_Ok in Hf as (Hid & _ & _).
    rewrite lookup_insert_ne; [done|]. congruence.
  - intros params w. unfold handle_task_get.
    by destruct (find_task params w) as [[k t]|].
Qed.

Lemma other_tasks_are_untouched_witness :
  tasks (snd (handle_task_send sample_uuid4 (failing "boom")
                (text_request_for "t2" "hi") completed_world)) !! "t1"
  = tasks completed_world !! "t1" ∧
  tasks (snd (handle_task_cancel [("id", JStr "t2")] completed_world)) !! "t1"
  = tasks completed_world !! "t1".
Proof.
  destruct (other_tasks_are_untouched sample_uuid4) as (Hsend & Hcancel & _).
  split.
  - apply Hsend. discriminate.
  - apply Hcancel. discriminate.
Defined.

(** ** What a stored task keeps *)

(** X5: the session of a task is fixed when the task is created: whatever
    requests follow, also submissions that carry another sessionId, the
    task stays stored under its key with the sessionId it had. *)
Theorem session_is_fixed_at_creation uuid4 rs w k t :
  tasks w !! k = Some t →
  ∃ t', tasks (run uuid4 rs w) !! k = Some t' ∧ sessionId t' = sessionId t.
Proof.
  revert w t. induction rs as [|r rs IH]; intros w t Ht; simpl; [eauto|].
  destruct (extends_handle uuid4 r w k t Ht) as (t1 & Ht1 & _).
  destruct (IH _ _ Ht1) as (t' & Ht' & Hs). exists t'. split; [done|].
  rewrite Hs.
  destruct (handle_tasks_cases _ _ _ _ _ Ht1)
    as [H|[(sid & H & _)|[(t0 & H & ->)|(t0 & s & out & [H|[H _]] & ->)]]];
    try congruence.
  - by simplify_eq.
  - simplify_eq. by destruct out.
Qed.

Lemma session_is_fixed_at_creation_witness :
  ∃ t',
    tasks (run sample_uuid4
             [Send (replying "4")
                (("sessionId", JStr "other") :: text_request_for "t1" "again")]
             completed_world) !! "t1" = Some t' ∧
    sessionId t' = Some (sample_uuid4 0).
Proof.
  apply (session_is_fixed_at_creation sample_uuid4
           [Send (replying "4")
              (("sessionId", JStr "other") :: text_request_for "t1" "again")]
           completed_world "t1"
           (send_end (replying "100" [HumanMessage "hi"]) (run_task sample_run))).
  reflexivity.
Defined.

Lemma agent_replies_app h1 h2 :
  agent_replies (h1 ++ h2) = agent_replies h1 ++ agent_replies h2.
Proof. unfold agent_replies. apply omap_app. Qed.

Lemma coherent_new_task k sid : coherent (new_task k sid).
Proof. split; simpl; done. Qed.

Lemma coherent_cancel_task t : coherent t → coherent (cancel_task t).
Proof. intros [Ha _ _]. split; simpl; done. Qed.

Lemma coherent_run out s t : coherent t → coherent (send_end out (open_run s t)).
Proof.
  intros [Ha _ _]. destruct out as [ms|e]; split; simpl; try done.
  - rewrite !agent_replies_app, !map_app, Ha. simpl.
    by rewrite app_nil_r.
  - intros _. rewrite last_snoc. eauto.
  - rewrite agent_replies_app, Ha. simpl. by rewrite app_nil_r.
Qed.

(** X6: in every store the server can be in, each task has exactly one
    "response" artifact per agent message of its history, in the same order
    and with the same text; a COMPLETED task carries as status message the
    last message of its history, which is an agent message; a task still
    SUBMITTED has an empty history. *)
Theorem stored_tasks_are_coherent uuid4 w k t :
  reachable uuid4 w → tasks w !! k = Some t → coherent t.
Proof.
  intros Hreach. revert k t. induction Hreach as [|w r _ IH]; intros k t Ht.
  - simpl in Ht. by rewrite lookup_empty in Ht.
  - destruct (handle_tasks_cases _ _ _ _ _ Ht)
      as [H|[(sid & _ & ->)|[(t0 & H & ->)|(t0 & s & out & H & ->)]]].
    + by eapply IH.
    + apply coherent_new_task.
    + apply coherent_cancel_task. by eapply IH.
    + apply coherent_run. destruct H as [H|[_ [sid ->]]].
      * by eapply IH.
      * apply coherent_new_task.
Qed.

Lemma stored_tasks_are_coherent_witness :
  ∃ t,
    tasks completed_world !! "t1" = Some t ∧
    artifacts t = map response_artifact (agent_replies (history t)) ∧
    agent_replies (history t) = ["100"].
Proof.
  eexists. split; [reflexivity|]. split; [|reflexivity].
  apply (coh_artifacts _
           (stored_tasks_are_coherent sample_uuid4 completed_world "t1" _
              completed_world_reachable eq_refl)).
Defined.

(** X7: a submission whose extracted value is not a string is rejected
    with ValidationError only after its task has been created: when its id
    is new, the store is left with one more task, which has status
    SUBMITTED, no history and no artifacts. *)
Theorem rejected_text_leaves_empty_task uuid4 agent_graph params w v k :
  extract_user_text params = Ok v → is_str v = false →
  fst (or_uuid uuid4 (requested_id params) (drawn w)) = JStr k →
  str_or_falsy (requested_session params) = true →
  tasks w !! k = None →
  ∃ sid w',
    handle_task_send uuid4 agent_graph params w = (Err ValidationError, w') ∧
    tasks w' = <[k := new_task k sid]> (tasks w) ∧
    size (tasks w') = S (size (tasks w)).
Proof.
  intros Hx Hv Hk Hsid Hnew.
  rewrite handle_task_send_begin. unfold send_begin. rewrite Hx.
  destruct (or_uuid uuid4 (requested_id params) (drawn w)) as [task_id n1].
  simpl in Hk. subst task_id.
  destruct (or_uuid_str uuid4 _ n1 Hsid) as [sid Hs].
  destruct (or_uuid uuid4 (requested_session params) n1) as [session_id n2].
  simpl in Hs. subst session_id.
  unfold get_or_create. simpl. rewrite Hnew. simpl.
  destruct v; try discriminate; simpl;
    (eexists _, _; split; [reflexivity|]; simpl; split; [done|];
     by apply map_size_insert_None).
Qed.

Lemma rejected_text_leaves_empty_task_witness :
  ∃ sid w',
    handle_task_send sample_uuid4 (replying "100")
      [("id", JStr "t9"); ("text", JNum 42)] completed_world
    = (Err ValidationError, w') ∧
    tasks w' = <["t9" := new_task "t9" sid]> (tasks completed_world) ∧
    size (tasks w') = S (size (tasks completed_world)).
Proof.
  apply (rejected_text_leaves_empty_task sample_uuid4 (replying "100")
           [("id", JStr "t9"); ("text", JNum 42)] completed_world (JNum 42) "t9");
    reflexivity.
Defined.

(** * Properties of the endpoints *)

Lemma verify_api_key_outcomes API_KEY authorization :
  verify_api_key API_KEY authorization = Ok true ∨
  ∃ detail,
    verify_api_key API_KEY authorization = Err (HTTPException 401 detail).
Proof.
  unfold verify_api_key. destruct (String.eqb API_KEY ""); [by left|].
  destruct authorization as [h|]; [|right; eauto].
  destruct (String.eqb h ""); [right; eauto|].
  destruct (negb _); [right; eauto|by left].
Qed.

Section EndpointFacts.

Variable uuid4 : nat → string.
Variable agent_graph : list lc_message → outcome.

(** X8: the JSON-RPC endpoint answers every envelope with the id of the
    envelope and with either a result or an error, never both and never
    neither.  For the methods tasks/send, tasks/get and tasks/cancel the
    answer is the task the handler returned, as result, or error -32000
    with the text of the exception the handler raised, and the world is
    the one the handler left.  For any other method the answer is error
    -32601 with the method named in the message, and the world is as it
    was. *)
Theorem jsonrpc_answers_every_envelope rpc_request w :
  let params := default [] (req_params rpc_request) in
  let i := req_id rpc_request in
  let reply := fst (handle_jsonrpc uuid4 agent_graph rpc_request w) in
  (∀ r,
     req_method rpc_request = "tasks/send" ∧ r = Send agent_graph params ∨
     req_method rpc_request = "tasks/get" ∧ r = Get params ∨
     req_method rpc_request = "tasks/cancel" ∧ r = Cancel params →
     handle_jsonrpc uuid4 agent_graph rpc_request w =
       match handle uuid4 r w with
       | (Ok t, w') => (rpc_result i t, w')
       | (Err e, w') => (rpc_error i (-32000) (StrOf e), w')
       end) ∧
  (req_method rpc_request ∉ ["tasks/send"; "tasks/get"; "tasks/cancel"] →
   handle_jsonrpc uuid4 agent_graph rpc_request w =
     (rpc_error i (-32601)
        (Literal ("Method not found: " +:+ req_method rpc_request)), w)) ∧
  resp_id reply = i ∧
  (is_Some (resp_result reply) ↔ resp_error reply = None).
Proof.
  cbv zeta. split_and!.
  - intros r [[Hm ->]|[[Hm ->]|[Hm ->]]]; unfold handle_jsonrpc; rewrite Hm;
      simpl; done.
  - intros Hunknown. unfold handle_jsonrpc.
    repeat match goal with
           | |- context [String.eqb ?a ?b] =>
               destruct (String.eqb_spec a b) as [Hm|_];
               [exfalso; apply Hunknown; rewrite Hm; by repeat constructor|]
           end.
    done.
  - unfold handle_jsonrpc.
    repeat match goal with
           | |- context [String.eqb ?a ?b] => destruct (String.eqb a b)
           end;
      try done;
      match goal with
      | |- context [fst (match ?r with _ => _ end)] => by destruct r as [[t|x] w0]
      end.
  - unfold handle_jsonrpc.
    repeat match goal with
           | |- context [String.eqb ?a ?b] => destruct (String.eqb a b)
           end;
      try (match goal with
           | |- context [fst (match ?r with _ => _ end)] =>
               destruct r as [[t|x] w0]
           end);
      simpl; (split; [intros [? H]; by inversion H || done|intros H; by inversion H || eauto]).
Qed.

(** X9: the JSON-RPC method tasks/send and the REST route agree on a JSON
    object: both leave the same world, the one carries a result exactly
    when the other answers 200 with the same task, and the one carries
    error -32000 exactly when the other answers 400 with the same error
    text.  A REST body that is not JSON, or is JSON but not an object, is
    answered 400 and changes nothing. *)
Theorem transports_agree_on_send params w version i :
  let rpc :=
    handle_jsonrpc uuid4 agent_graph
      {| req_jsonrpc := version; req_method := "tasks/send";
         req_params := Some params; req_id := i |} w in
  let rest := task_send uuid4 agent_graph (Some (JDict params)) w in
  snd rpc = snd rest ∧
  (∀ t, resp_result (fst rpc) = Some t ↔
        fst rest = {| status_code := 200; body := TaskContent t |}) ∧
  (∀ e, resp_error (fst rpc)
          = Some {| code := -32000; error_message := StrOf e |} ↔
        fst rest = {| status_code := 400;
                      body := ErrorContent (StrOf e) "Failed to process request" |}) ∧
  (∀ request_json,
     (∀ d, request_json ≠ Some (JDict d)) →
     ∃ m, task_send uuid4 agent_graph request_json w
          = ({| status_code := 400;
                body := ErrorContent m "Failed to process request" |}, w)).
Proof.
  unfold handle_jsonrpc, task_send. simpl.
  destruct (handle_task_send uuid4 agent_graph params w) as [[t|e] w'];
    simpl; split_and!; try done;
    try (intros x'; split; intros H; simplify_eq; done).
  all: intros [v|] Hnot; [|eauto].
  all: destruct v; simpl; eauto; by destruct (Hnot d).
Qed.

(** X10: when a submission has reached the executor call, neither
    transport reports an error, whatever the executor does: the JSON-RPC
    answer carries the task as result and the REST route answers 200 with
    the same task, which is FAILED when the executor raised. *)
Theorem executor_failure_is_no_transport_error params w p w1 version i :
  send_begin uuid4 params w = (Ok p, w1) →
  ∃ t,
    fst (handle_jsonrpc uuid4 agent_graph
           {| req_jsonrpc := version; req_method := "tasks/send";
              req_params := Some params; req_id := i |} w)
      = rpc_result i t ∧
    fst (task_send uuid4 agent_graph (Some (JDict params)) w)
      = {| status_code := 200; body := TaskContent t |} ∧
    (∀ e, agent_graph (run_conversation p) = Raised e →
          state (status t) = FAILED)  ∧
    (∀ ms, agent_graph (run_conversation p) = Returned ms →
           state (status t) = COMPLETED).
Proof.
  intros Hb. unfold handle_jsonrpc, task_send. simpl.
  rewrite handle_task_send_begin, Hb. simpl.
  eexists. split; [reflexivity|]. split; [reflexivity|].
  split; intros ? ->; done.
Qed.

End EndpointFacts.

Lemma executor_failure_is_no_transport_error_witness :
  ∃ t,
    fst (handle_jsonrpc sample_uuid4 (failing "boom")
           {| req_jsonrpc := "2.0"; req_method := "tasks/send";
              req_params := Some (text_request_for "t1" "hi");
              req_id := Some (IdStr "test-1") |} empty_world)
      = rpc_result (Some (IdStr "test-1")) t ∧
    fst (task_send sample_uuid4 (failing "boom")
           (Some (JDict (text_request_for "t1" "hi"))) empty_world)
      = {| status_code := 200; body := TaskContent t |} ∧
    state (status t) = FAILED.
Proof.
  destruct (executor_failure_is_no_transport_error sample_uuid4 (failing "boom")
              (text_request_for "t1" "hi") empty_world sample_run sample_world
              "2.0" (Some (IdStr "test-1")) eq_refl)
    as (t & Hrpc & Hrest & Hfailed & _).
  exists t. split; [exact Hrpc|]. split; [exact Hrest|].
  by apply (Hfailed "boom").
Defined.

Section RouteFacts.

Variable API_KEY : string.
Variable uuid4 : nat → string.
Variable agent_graph : list lc_message → outcome.

(** X11: for an authenticated caller and an id that is not in the store,
    the REST routes for query and cancel let the "Task not found" error
    leave the endpoint, where the JSON-RPC route answers 200 with that
    error in the envelope; none of them changes the world. *)
Theorem unknown_id_on_both_transports authorization k w version i :
  verify_api_key API_KEY authorization = Ok true →
  tasks w !! k = None →
  serve API_KEY uuid4 agent_graph authorization (GetTask k) w
    = (Err TaskNotFound, w) ∧
  serve API_KEY uuid4 agent_graph authorization (PostTaskCancel k) w
    = (Err TaskNotFound, w) ∧
  (∀ method, method = "tasks/get" ∨ method = "tasks/cancel" →
     serve API_KEY uuid4 agent_graph authorization
       (PostRoot {| req_jsonrpc := version; req_method := method;
                    req_params := Some [("id", JStr k)]; req_id := i |}) w
     = (Ok {| status_code := 200;
              body := RpcContent (rpc_error i (-32000) (StrOf TaskNotFound)) |},
        w)).
Proof.
  intros Hauth Hk.
  assert (find_task [("id", JStr k)] w = Err TaskNotFound) as Hfind.
  { apply find_task_absent; [done|]. by intros k' [= <-]. }
  unfold serve. rewrite Hauth.
  unfold task_get, task_cancel, handle_jsonrpc, handle_task_get,
    handle_task_cancel.
  split_and!.
  - by rewrite Hfind.
  - by rewrite Hfind.
  - intros method [-> | ->]; simpl; by rewrite Hfind.
Qed.

(** X12: a route answers 401 with a detail, leaving the world as it was,
    exactly when the credential check fails; an endpoint that is entered
    never gives that answer. *)
Theorem unauthenticated_requests_change_nothing authorization r w :
  verify_api_key API_KEY authorization ≠ Ok true ↔
  ∃ detail,
    serve API_KEY uuid4 agent_graph authorization r w
    = (Ok {| status_code := 401; body := DetailContent detail |}, w).
Proof.
  unfold serve.
  destruct (verify_api_key_outcomes API_KEY authorization) as [->|[detail ->]].
  - split; [done|]. intros [detail H]. exfalso.
    destruct r as [rpc_request|request_json|task_id|task_id].
    + destruct (handle_jsonrpc uuid4 agent_graph rpc_request w). discriminate H.
    + revert H. unfold task_send.
      destruct request_json as [v|]; [|discriminate].
      destruct (as_dict v); [|discriminate].
      destruct (handle_task_send uuid4 agent_graph a w) as [[t|e] w'];
        discriminate.
    + revert H. unfold task_get.
      destruct (handle_task_get [("id", JStr task_id)] w) as [[t|e] w'];
        discriminate.
    + revert H. unfold task_cancel.
      destruct (handle_task_cancel [("id", JStr task_id)] w) as [[t|e] w'];
        discriminate.
  - split; [eauto|done].
Qed.

End RouteFacts.

Lemma unknown_id_on_both_transports_witness :
  serve "demo-api-key-12345" sample_uuid4 (replying "100")
    (Some "Bearer demo-api-key-12345") (GetTask "t2") completed_world
    = (Err TaskNotFound, completed_world) ∧
  serve "demo-api-key-12345" sample_uuid4 (replying "100")
    (Some "Bearer demo-api-key-12345")
    (PostRoot {| req_jsonrpc := "2.0"; req_method := "tasks/get";
                 req_params := Some [("id", JStr "t2")];
                 req_id := Some (IdInt 7) |}) completed_world
    = (Ok {| status_code := 200;
             body := RpcContent (rpc_error (Some (IdInt 7)) (-32000)
                                   (StrOf TaskNotFound)) |},
       completed_world).
Proof.
  destruct (unknown_id_on_both_transports "demo-api-key-12345" sample_uuid4
              (replying "100") (Some "Bearer demo-api-key-12345") "t2"
              completed_world "2.0" (Some (IdInt 7)))
    as (Hget & _ & Hrpc); [reflexivity..|].
  split; [exact Hget|]. apply Hrpc. by left.
Defined.

Lemma unauthenticated_requests_change_nothing_witness :
  ∃ detail,
    serve "demo-api-key-12345" sample_uuid4 (replying "100") None
      (PostTasksSend (Some (JDict (text_request "hi")))) completed_world
    = (Ok {| status_code := 401; body := DetailContent detail |},
       completed_world).
Proof.
  apply (unauthenticated_requests_change_nothing "demo-api-key-12345"
           sample_uuid4 (replying "100") None
           (PostTasksSend (Some (JDict (text_request "hi")))) completed_world).
  discriminate.
Defined.

(** * Further properties of the credential check *)

Lemma lstrip_head s : starts_with_space (lstrip s) = false.
Proof.
  induction s as [|c r IH]; [done|]. simpl.
  destruct (is_space c) eqn:E; [done|]. simpl. by rewrite E.
Qed.

Lemma rstrip_head s :
  starts_with_space s = false → starts_with_space (rstrip s) = false.
Proof.
  destruct s as [|c r]; [done|]. simpl. intros Hc. rewrite Hc. simpl.
  exact Hc.
Qed.

Lemma rstrip_tail s : ends_with_space (rstrip s) = false.
Proof.
  induction s as [|c r IH]; [done|]. simpl.
  destruct (is_space c && String.eqb (rstrip r) "") eqn:E; [done|].
  destruct (rstrip r) as [|c' r'] eqn:Hr; simpl in *.
  - rewrite andb_true_r in E. done.
  - done.
Qed.

(** X13: a secret that begins or ends with whitespace, as one read with
    its line end, shuts every caller out: the token compared with it has
    been trimmed, so no Authorization header passes the check. *)
Theorem padded_secret_rejects_everyone API_KEY authorization :
  starts_with_space API_KEY || ends_with_space API_KEY = true →
  ∃ detail,
    verify_api_key API_KEY authorization = Err (HTTPException 401 detail).
Proof.
  intros Hpad.
  destruct (verify_api_key_outcomes API_KEY authorization) as [Hok|H];
    [|exact H].
  exfalso. revert Hok. unfold verify_api_key.
  destruct (String.eqb_spec API_KEY "") as [->|_]; [done|].
  destruct authorization as [h|]; [|done].
  destruct (String.eqb h ""); [done|].
  destruct (String.eqb_spec (strip (remove_all "Bearer " h)) API_KEY)
    as [<-|]; [|done].
  intros _. unfold strip in Hpad.
  rewrite rstrip_tail, rstrip_head in Hpad by apply lstrip_head. done.
Qed.

Lemma padded_secret_rejects_everyone_witness :
  ∃ detail,
    verify_api_key ("demo-api-key-12345" +:+ String (ascii_of_nat 10) "")
      (Some ("demo-api-key-12345" +:+ String (ascii_of_nat 10) ""))
    = Err (HTTPException 401 detail).
Proof.
  apply (padded_secret_rejects_everyone
           ("demo-api-key-12345" +:+ String (ascii_of_nat 10) "")).
  reflexivity.
Defined.

(** * A dumped message and the normaliser *)

Lemma scan_parts_dumped ps :
  scan_parts (map dump_part ps) =
  JStr match List.find read_as_text ps with
       | Some p => default "" (part_text p)
       | None => ""
       end.
Proof.
  induction ps as [|p ps IH]; [done|].
  destruct p as [ty [tx|] [mt|] [dt|]]; unfold read_as_text in *;
    cbn; destruct (String.eqb ty "text"); cbn; done.
Qed.

(** X14: the normaliser reads back what the server dumps: for a request
    whose [message] is a dumped message, the extracted text is the text of
    the first part of that message that has type "text" or a text, when it
    is not empty.  A text message the server put in a history, sent back
    as the message of a request, is so read as its own text. *)
Theorem dumped_message_is_read_back params m :
  dict_lookup params "message" = Some (dump_message m) →
  wire_text m ≠ "" →
  extract_user_text params = Ok (JStr (wire_text m)) ∧
  ∀ r s, wire_text (text_message r s) = s.
Proof.
  intros Hm Hw. split; [|done].
  unfold extract_user_text, from_message, dict_get. rewrite Hm.
  cbn -[scan_parts truthy]. rewrite scan_parts_dumped. fold (wire_text m).
  apply truthy_str in Hw.
  change (truthy (dump_message m)) with true.
  unfold mbind, result_bind. repeat (rewrite Hw; cbn -[truthy]). done.
Qed.

Lemma dumped_message_is_read_back_witness :
  extract_user_text
    [("id", JStr "t1");
     ("message", dump_message (text_message "agent" "100"))]
  = Ok (JStr (wire_text (text_message "agent" "100"))).
Proof.
  apply (dumped_message_is_read_back
           [("id", JStr "t1");
            ("message", dump_message (text_message "agent" "100"))]
           (text_message "agent" "100")); [reflexivity|discriminate].
Defined.

(** * The knowledge tool *)

Lemma lower_app a b : lower (a +:+ b) = lower a +:+ lower b.
Proof.
  unfold String.append. induction a as [|c a IH]; [done|].
  simpl. by rewrite IH.
Qed.

Lemma prefix_app k s : String.prefix k (k +:+ s) = true.
Proof.
  unfold String.append. induction k as [|c k IH]; simpl.
  - by destruct s.
  - destruct (ascii_dec c c); [exact IH|done].
Qed.

Lemma occurs_app_r k a s : occurs k s = true → occurs k (a +:+ s) = true.
Proof.
  unfold String.append. intros Hs. induction a as [|c a IH]; [done|].
  simpl. rewrite IH. apply orb_true_r.
Qed.

Lemma occurs_inside k a b : occurs k (a +:+ k +:+ b) = true.
Proof.
  apply occurs_app_r.
  assert (∀ s, occurs k s = String.prefix k s || occurs k s) as Hunfold.
  { intros s. destruct s; cbn [occurs];
      match goal with
      | |- context [String.prefix ?x ?y] => by destruct (String.prefix x y)
      end. }
  by rewrite Hunfold, prefix_app.
Qed.

(** X15: the knowledge tool answers by the first of the keywords
    servicenow, a2a protocol, langgraph that occurs in the lower-cased
    query, and with the default entry when none does (that "default" is
    itself a key of the table changes nothing).  So a query that mentions
    ServiceNow anywhere, in any letter case, gets the ServiceNow entry
    whatever else it mentions. *)
Theorem knowledge_answers_by_first_keyword :
  (∀ query,
     search_knowledge query =
       if occurs "servicenow" (lower query)
       then table_get knowledge "servicenow"
       else if occurs "a2a protocol" (lower query)
       then table_get knowledge "a2a protocol"
       else if occurs "langgraph" (lower query)
       then table_get knowledge "langgraph"
       else table_get knowledge "default") ∧
  (∀ before word after,
     lower word = "servicenow" →
     search_knowledge (before +:+ word +:+ after)
     = table_get knowledge "servicenow").
Proof.
  assert (∀ query,
     search_knowledge query =
       if occurs "servicenow" (lower query)
       then table_get knowledge "servicenow"
       else if occurs "a2a protocol" (lower query)
       then table_get knowledge "a2a protocol"
       else if occurs "langgraph" (lower query)
       then table_get knowledge "langgraph"
       else table_get knowledge "default") as Hchain.
  { intros query. unfold search_knowledge, knowledge. cbn [first_hit].
    destruct (occurs "servicenow" (lower query)); [done|].
    destruct (occurs "a2a protocol" (lower query)); [done|].
    destruct (occurs "langgraph" (lower query)); [done|].
    by destruct (occurs "default" (lower query)). }
  split; [exact Hchain|].
  intros before word after Hword.
  by rewrite Hchain, !lower_app, Hword, occurs_inside.
Qed.

Lemma knowledge_answers_by_first_keyword_witness :
  search_knowledge ("Compare LangGraph with " +:+ "ServiceNow" +:+ " please")
  = table_get knowledge "servicenow".
Proof.
  apply (proj2 knowledge_answers_by_first_keyword
           "Compare LangGraph with " "ServiceNow" " please").
  reflexivity.
Defined.

(** * Generated identifiers *)

Lemma or_uuid_counter uuid4 v n :
  (n ≤ snd (or_uuid uuid4 v n))%nat ∧
  (truthy v = false → snd (or_uuid uuid4 v n) = S n).
Proof. unfold or_uuid. destruct (truthy v); simpl; split; (done || lia). Qed.

Lemma send_begin_drawn uuid4 params w r w1 :
  send_begin uuid4 params w = (r, w1) →
  (drawn w ≤ drawn w1)%nat ∧
  (truthy (requested_id params) = false → (drawn w < drawn w1)%nat).
Proof.
  unfold send_begin.
  destruct (or_uuid_counter uuid4 (requested_id params) (drawn w)) as [H1 H1'].
  destruct (or_uuid uuid4 (requested_id params) (drawn w)) as [task_id n1].
  destruct (or_uuid_counter uuid4 (requested_session params) n1) as [H2 _].
  destruct (or_uuid uuid4 (requested_session params) n1) as [session_id n2].
  simpl in *. intros H.
  assert (drawn w1 = n2) as ->.
  { revert H. unfold get_or_create, with_tasks.
    repeat case_match; intros; simplify_eq; done. }
  split; [lia|]. intros Hid. specialize (H1' Hid). lia.
Qed.

Lemma handle_drawn uuid4 r w : (drawn w ≤ drawn (snd (handle uuid4 r w)))%nat.
Proof.
  destruct r as [ag params|params|params]; simpl.
  - rewrite handle_task_send_begin.
    destruct (send_begin uuid4 params w) as [[p|e] w1] eqn:Hb;
      apply send_begin_drawn in Hb as [Hle _]; done.
  - unfold handle_task_get. by destruct (find_task params w) as [[k t]|].
  - unfold handle_task_cancel. by destruct (find_task params w) as [[k t]|].
Qed.

Lemma run_drawn uuid4 rs w : (drawn w ≤ drawn (run uuid4 rs w))%nat.
Proof.
  revert w. induction rs as [|r rs IH]; intros w; simpl; [done|].
  etrans; [apply (handle_drawn uuid4 r)|apply IH].
Qed.

(** What a submission without id that returns a task has done: the task
    is stored under the next identifier, and the generator has advanced. *)
Lemma anonymous_send uuid4 agent_graph params w t w' :
  reachable uuid4 w →
  truthy (requested_id params) = false →
  handle_task_send uuid4 agent_graph params w = (Ok t, w') →
  id t = uuid4 (drawn w) ∧ (drawn w < drawn w')%nat ∧ reachable uuid4 w'.
Proof.
  intros Hreach Hid H.
  assert (reachable uuid4 w') as Hreach'.
  { replace w' with (snd (handle uuid4 (Send agent_graph params) w));
      [by constructor|]. simpl. by rewrite H. }
  destruct (handle_task_send_Ok _ _ _ _ _ _ H) as (p & w1 & Hb & _ & Hw').
  destruct (send_begin_inv _ _ _ _ _ Hb) as (s & sid & _ & Hk & _).
  unfold or_uuid in Hk. rewrite Hid in Hk. injection Hk as Hk.
  split_and!; [| |done].
  - rewrite Hk.
    eapply inv_key; [exact (reachable_store_inv uuid4 w' Hreach')|].
    rewrite Hw'. apply lookup_insert_eq.
  - rewrite handle_task_send_begin, Hb in H. injection H as _ <-. simpl.
    by apply (send_begin_drawn _ _ _ _ _ Hb).
Qed.

(** X16: with a generator that never repeats an identifier, two
    submissions without id that return a task never return the same one,
    whatever requests are served between them: the identifiers of the two
    tasks differ. *)
Theorem anonymous_submissions_get_distinct_tasks
    uuid4 ag1 ag2 params1 params2 rs w t1 w1 t2 w2 :
  (∀ m n, uuid4 m = uuid4 n → m = n) →
  reachable uuid4 w →
  truthy (requested_id params1) = false →
  truthy (requested_id params2) = false →
  handle_task_send uuid4 ag1 params1 w = (Ok t1, w1) →
  handle_task_send uuid4 ag2 params2 (run uuid4 rs w1) = (Ok t2, w2) →
  id t1 ≠ id t2.
Proof.
  intros Hinj Hreach Hid1 Hid2 H1 H2.
  destruct (anonymous_send _ _ _ _ _ _ Hreach Hid1 H1) as (-> & Hlt & Hreach1).
  destruct (anonymous_send _ _ _ _ _ _ (reachable_run uuid4 rs w1 Hreach1) Hid2 H2)
    as (-> & _ & _).
  intros Heq%Hinj. pose proof (run_drawn uuid4 rs w1). lia.
Qed.

Lemma tally_uuid4_inj m n : tally_uuid4 m = tally_uuid4 n → m = n.
Proof.
  revert n. induction m as [|m IH]; intros [|n]; simpl; try done.
  intros [= H]. f_equal. by apply IH.
Qed.

Lemma anonymous_submissions_get_distinct_tasks_witness :
  ∃ t1 w1 t2 w2,
    handle_task_send tally_uuid4 (replying "100") (text_request "hi")
      empty_world = (Ok t1, w1) ∧
    handle_task_send tally_uuid4 (failing "boom") (text_request "again")
      (run tally_uuid4 [Cancel [("id", JStr "u")]] w1) = (Ok t2, w2) ∧
    id t1 ≠ id t2.
Proof.
  eexists _, _, _, _. split; [reflexivity|]. split; [reflexivity|].
  eapply (anonymous_submissions_get_distinct_tasks tally_uuid4
            (replying "100") (failing "boom")
            (text_request "hi") (text_request "again")
            [Cancel [("id", JStr "u")]] empty_world);
    [exact tally_uuid4_inj|apply reachable_init|reflexivity..].
Defined.

Lemma jsonrpc_answers_every_envelope_witness :
  handle_jsonrpc sample_uuid4 (failing "boom")
    {| req_jsonrpc := "2.0"; req_method := "tasks/list"; req_params := None;
       req_id := Some (IdInt 1) |} completed_world
  = (rpc_error (Some (IdInt 1)) (-32601)
       (Literal ("Method not found: " +:+ "tasks/list")), completed_world) ∧
  handle_jsonrpc sample_uuid4 (failing "boom")
    {| req_jsonrpc := "2.0"; req_method := "tasks/get";
       req_params := Some [("id", JStr "t2")];
       req_id := Some (IdStr "a") |} completed_world
  = (rpc_error (Some (IdStr "a")) (-32000) (StrOf TaskNotFound),
     completed_world).
Proof.
  split.
  - pose proof (jsonrpc_answers_every_envelope sample_uuid4 (failing "boom")
                  {| req_jsonrpc := "2.0"; req_method := "tasks/list";
                     req_params := None; req_id := Some (IdInt 1) |}
                  completed_world) as H.
    cbv zeta in H. destruct H as (_ & Hunknown & _).
    apply Hunknown. rewrite !not_elem_of_cons.
    split_and!; [discriminate..|apply not_elem_of_nil].
  - pose proof (jsonrpc_answers_every_envelope sample_uuid4 (failing "boom")
                  {| req_jsonrpc := "2.0"; req_method := "tasks/get";
                     req_params := Some [("id", JStr "t2")];
                     req_id := Some (IdStr "a") |}
                  completed_world) as H.
    cbv zeta in H. destruct H as (Hknown & _).
    rewrite (Hknown (Get [("id", JStr "t2")])); [reflexivity|].
    right. left. split; reflexivity.
Defined.

Lemma transports_agree_on_send_witness :
  ∃ t,
    resp_result
      (fst (handle_jsonrpc sample_uuid4 (replying "100")
              {| req_jsonrpc := "2.0"; req_method := "tasks/send";
                 req_params := Some (text_request_for "t1" "hi");
                 req_id := None |} empty_world)) = Some t ∧
    fst (task_send sample_uuid4 (replying "100")
           (Some (JDict (text_request_for "t1" "hi"))) empty_world)
      = {| status_code := 200; body := TaskContent t |} ∧
    ∃ m, task_send sample_uuid4 (replying "100") (Some (JList [])) empty_world
         = ({| status_code := 400;
               body := ErrorContent m "Failed to process request" |},
            empty_world).
Proof.
  pose proof (transports_agree_on_send sample_uuid4 (replying "100")
                (text_request_for "t1" "hi") empty_world "2.0" None) as H.
  cbv zeta in H. destruct H as (_ & Hresult & _ & Hbody).
  eexists. split; [reflexivity|]. split.
  - apply Hresult. reflexivity.
  - apply Hbody. intros d. discriminate.
Defined.

(** ** Task identity *)

Lemma send_drawn uuid4 agent_graph params w :
  truthy (requested_id params) = false →
  (drawn w < drawn (snd (handle_task_send uuid4 agent_graph params w)))%nat.
Proof.
  intros Hid. rewrite handle_task_send_begin.
  destruct (send_begin uuid4 params w) as [[p|e] w1] eqn:Hb;
    apply send_begin_drawn in Hb as [_ Hlt]; simpl; by apply Hlt.
Qed.

(** A key that a request adds to the store is the id of a submission. *)
Lemma handle_new_key uuid4 r w k :
  tasks w !! k = None →
  is_Some (tasks (snd (handle uuid4 r w)) !! k) →
  ∃ agent_graph params,
    r = Send agent_graph params ∧
    fst (or_uuid uuid4 (requested_id params) (drawn w)) = JStr k.
Proof.
  intros Hnone Hsome. destruct r as [ag params|params|params]; simpl in Hsome.
  - exists ag, params. split; [done|].
    destruct (handle_task_send uuid4 ag params w) as [[t|e] w'] eqn:H;
      simpl in Hsome.
    + destruct (handle_task_send_Ok _ _ _ _ _ _ H) as (p & w1 & Hb & _ & Hw').
      destruct (send_begin_inv _ _ _ _ _ Hb) as (s & sid & _ & Hk & _).
      rewrite Hw' in Hsome. destruct (decide (run_id p = k)) as [<-|Hne];
        [done|].
      rewrite lookup_insert_ne, Hnone in Hsome by done. by destruct Hsome.
    + rewrite handle_task_send_begin in H.
      destruct (send_begin uuid4 params w) as [[p|e'] w1] eqn:Hb; [discriminate|].
      injection H as <- <-.
      destruct (send_begin_Err _ _ _ _ _ Hb) as [Hw|(k0 & sid & Hk & _ & Hw & _)];
        rewrite Hw in Hsome.
      * rewrite Hnone in Hsome. by destruct Hsome.
      * destruct (decide (k0 = k)) as [<-|Hne]; [done|].
        rewrite lookup_insert_ne, Hnone in Hsome by done. by destruct Hsome.
  - exfalso. revert Hsome. unfold handle_task_get.
    destruct (find_task params w) as [[k0 t]|]; simpl; rewrite Hnone;
      by intros [? ?].
  - exfalso. revert Hsome. unfold handle_task_cancel.
    destruct (find_task params w) as [[k0 t]|] eqn:Hf; simpl.
    + apply find_task_Ok in Hf as (_ & _ & Ht).
      destruct (decide (k0 = k)) as [->|Hne]; [congruence|].
      rewrite lookup_insert_ne, Hnone by done. by intros [? ?].
    + rewrite Hnone. by intros [? ?].
Qed.

Lemma reachable_unguessed_reachable uuid4 w :
  reachable_unguessed uuid4 w → reachable uuid4 w.
Proof. induction 1; by constructor. Qed.

(** When the generator never repeats a value and no submission guesses an
    identifier, the identifiers still to come are not keys of the store. *)
Lemma identifiers_ahead_are_unseen uuid4 w :
  (∀ m n, uuid4 m = uuid4 n → m = n) →
  reachable_unguessed uuid4 w →
  ∀ n, (drawn w ≤ n)%nat → tasks w !! uuid4 n = None.
Proof.
  intros Hinj. induction 1 as [|w r _ IH Hguess]; intros n Hn; [done|].
  pose proof (handle_drawn uuid4 r w) as Hmono.
  destruct (tasks (snd (handle uuid4 r w)) !! uuid4 n) as [t|] eqn:Hkey;
    [exfalso|done].
  destruct (handle_new_key uuid4 r w (uuid4 n)) as (ag & params & -> & Hk);
    [apply IH; lia|by rewrite Hkey|].
  simpl in *. unfold or_uuid in Hk.
  destruct (truthy (requested_id params)) eqn:Hid; simpl in Hk.
  - specialize (Hguess n Hk). lia.
  - injection Hk as Hk. apply Hinj in Hk.
    pose proof (send_drawn uuid4 ag params w Hid). lia.
Qed.

(** C6 as stated fails when a caller has supplied the identifier the
    generator returns next: the submission without id is then stored under
    an identifier already seen, as a further run of the task that is
    there, and the store does not grow. *)
Lemma anonymous_submission_meets_supplied_id :
  reachable sample_uuid4 supplied_world ∧
  truthy (requested_id (text_request "again")) = false ∧
  ∃ t0 t w',
    tasks supplied_world !! "uuid-1" = Some t0 ∧
    handle_task_send sample_uuid4 (replying "4") (text_request "again")
      supplied_world = (Ok t, w') ∧
    id t = "uuid-1" ∧
    history t0 `prefix_of` history t ∧ length (history t) = 4 ∧
    size (tasks w') = size (tasks supplied_world).
Proof.
  split; [apply reachable_step, reachable_init|]. split; [reflexivity|].
  eexists _, _, _. split; [reflexivity|]. split; [reflexivity|].
  split; [reflexivity|]. split; [by eexists [_; _]|].
  split; reflexivity.
Qed.

(** C6, amended: a submission without id stores its task under the
    identifier the generator returns next.  When the generator never
    repeats a value and no caller has submitted under an identifier the
    generator had yet to return, that identifier is not a key of the store
    before the submission, the task bears it as id, and the store grows by
    exactly that key.  Two submissions with the same id act on one task,
    the second leaving the size of the store unchanged and the history
    strictly longer.  In a store the server can be in, two tasks never have
    the same id. *)
Theorem task_identity uuid4 :
  (∀ agent_graph params w s,
     truthy (requested_id params) = false →
     extract_user_text params = Ok (JStr s) →
     str_or_falsy (requested_session params) = true →
     ∃ t w',
       handle_task_send uuid4 agent_graph params w = (Ok t, w') ∧
       tasks w' = <[uuid4 (drawn w) := t]> (tasks w) ∧
       ((∀ m n, uuid4 m = uuid4 n → m = n) →
        reachable_unguessed uuid4 w →
        tasks w !! uuid4 (drawn w) = None ∧
        id t = uuid4 (drawn w) ∧
        size (tasks w') = S (size (tasks w)))) ∧
  (∀ ag1 ag2 params1 params2 w t1 w1 t2 w2,
     requested_id params1 = requested_id params2 →
     truthy (requested_id params1) = true →
     handle_task_send uuid4 ag1 params1 w = (Ok t1, w1) →
     handle_task_send uuid4 ag2 params2 w1 = (Ok t2, w2) →
     ∃ k,
       requested_id params1 = JStr k ∧
       tasks w1 !! k = Some t1 ∧
       tasks w2 = <[k := t2]> (tasks w1) ∧
       size (tasks w2) = size (tasks w1) ∧
       history t1 `prefix_of` history t2 ∧
       length (history t1) < length (history t2)) ∧
  (∀ w k1 k2 t1 t2,
     reachable uuid4 w →
     tasks w !! k1 = Some t1 → tasks w !! k2 = Some t2 →
     id t1 = id t2 → k1 = k2).
Proof.
  split_and!.
  - intros ag params w s Hid Hx Hsid.
    destruct (send_begin_accepts uuid4 params w s Hx) as (p & w1 & Hb).
    { unfold well_typed_ids, str_or_falsy at 1. by rewrite Hid, Hsid. }
    destruct (send_begin_inv _ _ _ _ _ Hb) as (s' & sid & _ & Hk & Hp & _ & _).
    unfold or_uuid in Hk. rewrite Hid in Hk. simpl in Hk. injection Hk as Hk.
    destruct (handle_task_send uuid4 ag params w) as [r w'] eqn:H.
    pose proof H as H'. rewrite handle_task_send_begin, Hb in H'.
    injection H' as <- _.
    destruct (handle_task_send_Ok _ _ _ _ _ _ H) as (p' & w1' & Hb' & Ht & Hw').
    rewrite Hb in Hb'. injection Hb' as <- <-. rewrite <- Hk in Hw'.
    eexists _, _. split; [reflexivity|]. split; [done|].
    intros Hinj Hreach.
    pose proof (identifiers_ahead_are_unseen uuid4 w Hinj Hreach (drawn w)
                  (le_n _)) as Hfresh.
    split; [done|]. split.
    + rewrite Hp, <- Hk, Hfresh. simpl.
      by destruct (ag (run_conversation p)).
    + rewrite Hw'. by apply map_size_insert_None.
  - intros ag1 ag2 params1 params2 w t1 w1 t2 w2 Hsame Hid H1 H2.
    destruct (handle_task_send_Ok _ _ _ _ _ _ H1) as (p1 & u1 & Hb1 & Ht1 & Hw1).
    destruct (handle_task_send_Ok _ _ _ _ _ _ H2) as (p2 & u2 & Hb2 & Ht2 & Hw2).
    destruct (send_begin_inv _ _ _ _ _ Hb1) as (s1 & sid1 & _ & Hk1 & _).
    destruct (send_begin_inv _ _ _ _ _ Hb2) as (s2 & sid2 & _ & Hk2 & Hp2 & _).
    unfold or_uuid in Hk1, Hk2. rewrite <- Hsame in Hk2.
    rewrite Hid in Hk1, Hk2. simpl in Hk1, Hk2.
    assert (run_id p2 = run_id p1) as Hk by congruence.
    rewrite Hk in *. exists (run_id p1).
    assert (tasks w1 !! run_id p1 = Some t1) as Hstored.
    { rewrite Hw1. apply lookup_insert_eq. }
    rewrite Hstored in Hp2. simpl in Hp2.
    assert (history t2 = (history t1 ++ [text_message "user" s2])
              ++ match ag2 (run_conversation p2) with
                 | Returned ms => [text_message "agent" (response_text ms)]
                 | Raised _ => []
                 end) as Hh.
    { rewrite Ht2, Hp2. destruct (ag2 (run_conversation p2)); simpl; [done|].
      by rewrite app_nil_r. }
    split_and!; [done|done|done| | |].
    + rewrite Hw2. by erewrite map_size_insert_Some.
    + rewrite Hh, <- (assoc_L (++)). by apply prefix_app_r.
    + rewrite Hh, !length_app. simpl. lia.
  - intros w k1 k2 t1 t2 Hreach H1 H2 Hid.
    pose proof (reachable_store_inv uuid4 w Hreach) as Hinv.
    rewrite <- (inv_key w Hinv k1 t1 H1), <- (inv_key w Hinv k2 t2 H2). done.
Qed.

Lemma tally_uuid4_shape n : tally_uuid4 n ≠ "t1".
Proof. destruct n as [|[|n]]; discriminate. Qed.

Lemma task_identity_witness :
  (let w :=
     snd (handle tally_uuid4
            (Send (replying "100") (text_request_for "t1" "hi")) empty_world) in
   reachable_unguessed tally_uuid4 w ∧
   ∃ t w',
     handle_task_send tally_uuid4 (replying "4") (text_request "again") w
       = (Ok t, w') ∧
     tasks w !! tally_uuid4 (drawn w) = None ∧
     id t = tally_uuid4 (drawn w) ∧
     size (tasks w') = S (size (tasks w))) ∧
  (∃ t1 w1 t2 w2,
     handle_task_send sample_uuid4 (replying "100")
       (text_request_for "t1" "hi") empty_world = (Ok t1, w1) ∧
     handle_task_send sample_uuid4 (failing "boom")
       (text_request_for "t1" "again") w1 = (Ok t2, w2) ∧
     size (tasks w2) = size (tasks w1) ∧
     length (history t1) < length (history t2)) ∧
  (∀ k t, tasks completed_world !! k = Some t →
          id t = "t1" → k = "t1").
Proof.
  destruct (task_identity tally_uuid4) as (Hfresh & _ & _).
  destruct (task_identity sample_uuid4) as (_ & Htwice & Hunique).
  split_and!.
  - intros w.
    assert (reachable_unguessed tally_uuid4 w) as Hreach.
    { apply unguessed_step; [apply unguessed_init|].
      intros n [= Hn]. by destruct (tally_uuid4_shape n). }
    split; [exact Hreach|].
    destruct (Hfresh (replying "4") (text_request "again") w "again")
      as (t & w' & H & _ & Hnew); [reflexivity..|].
    destruct (Hnew tally_uuid4_inj Hreach) as (Hunseen & Hid & Hsize).
    exists t, w'. split; [exact H|]. split; [exact Hunseen|].
    split; [exact Hid|exact Hsize].
  - eexists _, _, _, _. split; [reflexivity|]. split; [reflexivity|].
    edestruct (Htwice (replying "100") (failing "boom")
                 (text_request_for "t1" "hi") (text_request_for "t1" "again")
                 empty_world)
      as (k & _ & _ & _ & Hsize & _ & Hlen); [reflexivity..|].
    split; [exact Hsize|exact Hlen].
  - intros k t Hk Hid.
    apply (Hunique completed_world k "t1" t
             (send_end (replying "100" [HumanMessage "hi"])
                (run_task sample_run)));
      [apply completed_world_reachable|exact Hk|reflexivity|exact Hid].
Defined.
